(** * itext2bin: length-prefixed framing around an external compressor

    A shallow embedding of [itext2bin.py].  Python [bytes] are lists of
    [Byte.byte], Python [int]s are [Z], Python [str]s are [string], raised
    exceptions are the [Raise] outcome of a result type, and the three
    ambient effects of the module ([shutil.which], [os.environ.get] and
    [subprocess.run]) are calls into a [World] that are logged in a trace. *)

From Stdlib Require Import ZArith List String Ascii Bool Lia.
From Stdlib.Strings Require Import Byte.
From Stdlib Require Import DecimalString.
Import ListNotations.

Local Open Scope string_scope.
Local Open Scope list_scope.
Local Open Scope Z_scope.

(** ** Python values and exceptions *)

Module Py.

Definition bytes := list byte.

(** The exception classes a call can end in, with Python's hierarchy:
    [LlamaZipNotFoundError(RuntimeError)], [LlamaZipModelPathError(ValueError)],
    [binascii.Error(ValueError)], [UnicodeEncodeError(UnicodeError)],
    [UnicodeError(ValueError)], and [OSError], which [subprocess.run] raises
    when the process cannot be started. *)
Inductive exn_class :=
| RuntimeError
| ValueError
| LlamaZipNotFoundError
| LlamaZipModelPathError
| binascii_Error
| UnicodeError
| UnicodeEncodeError
| OSError.

Definition exn_class_eqb (c d : exn_class) : bool :=
  match c, d with
  | RuntimeError, RuntimeError
  | ValueError, ValueError
  | LlamaZipNotFoundError, LlamaZipNotFoundError
  | LlamaZipModelPathError, LlamaZipModelPathError
  | binascii_Error, binascii_Error
  | UnicodeError, UnicodeError
  | UnicodeEncodeError, UnicodeEncodeError
  | OSError, OSError => true
  | _, _ => false
  end.

Definition base_class (c : exn_class) : option exn_class :=
  match c with
  | LlamaZipNotFoundError => Some RuntimeError
  | LlamaZipModelPathError => Some ValueError
  | binascii_Error => Some ValueError
  | UnicodeEncodeError => Some UnicodeError
  | UnicodeError => Some ValueError
  | RuntimeError | ValueError | OSError => None
  end.

(** [c] is [d] or reaches it in at most [n] steps up the hierarchy. *)
Fixpoint issubclass_upto (n : nat) (c d : exn_class) : bool :=
  exn_class_eqb c d ||
  match n, base_class c with
  | S n', Some b => issubclass_upto n' b d
  | _, _ => false
  end.

(** No class above is more than two steps below its root. *)
Definition issubclass (c d : exn_class) : bool := issubclass_upto 2 c d.

Record exn := mk_exn { exn_cls : exn_class; exn_msg : string }.

Definition isinstance (e : exn) (c : exn_class) : bool :=
  issubclass (exn_cls e) c.

(** The outcome of a call: a value, or a raised exception. *)
Inductive result (A : Type) :=
| Ok (a : A)
| Raise (e : exn).
Arguments Ok {A} a.
Arguments Raise {A} e.

Definition rbind {A B} (r : result A) (k : A -> result B) : result B :=
  match r with
  | Ok a => k a
  | Raise e => Raise e
  end.

(** [len(x)] *)
Definition len {A} (l : list A) : Z := Z.of_nat (List.length l).

(** [str(n)] for an [int]. *)
Definition str_int (n : Z) : string := NilZero.string_of_int (Z.to_int n).

(** The value of a byte, as [bytes] indexing gives it. *)
Definition byte_val (b : byte) : Z := Z.of_N (Byte.to_N b).

(** [bytes(ints)]: every item must be in [range(0, 256)]. *)
Fixpoint bytes_of_ints (l : list Z) : result bytes :=
  match l with
  | [] => Ok []
  | x :: l' =>
      if (0 <=? x) && (x <? 256) then
        match Byte.of_N (Z.to_N x) with
        | Some b => rbind (bytes_of_ints l') (fun bs => Ok (b :: bs))
        | None => Raise (mk_exn ValueError "bytes must be in range(0, 256)")
        end
      else Raise (mk_exn ValueError "bytes must be in range(0, 256)")
  end.

(** Truthiness of a [str]: only the empty string is falsy. *)
Definition str_truthy (s : string) : bool :=
  match s with
  | EmptyString => false
  | String _ _ => true
  end.

(** Truthiness of a [str | None]. *)
Definition opt_str_truthy (o : option string) : bool :=
  match o with
  | None => false
  | Some s => str_truthy s
  end.

(** [x or ""] for [x : str | None]. *)
Definition or_empty (o : option string) : string :=
  if opt_str_truthy o then
    match o with Some s => s | None => "" end
  else "".

(** ASCII whitespace, as [bytes.strip()] with no argument removes it. *)
Definition isspace (b : byte) : bool :=
  match b with
  | x09 | x0a | x0b | x0c | x0d | x20 => true
  | _ => false
  end.

Fixpoint lstrip (s : bytes) : bytes :=
  match s with
  | [] => []
  | b :: s' => if isspace b then lstrip s' else s
  end.

Definition rstrip (s : bytes) : bytes := rev (lstrip (rev s)).

(** [s.strip()] *)
Definition strip (s : bytes) : bytes := rstrip (lstrip s).



Definition all_space (s : bytes) : Prop := forallb isspace s = true.

(** Every byte is an ASCII code. *)
Definition is_ascii (s : bytes) : Prop := Forall (fun b => byte_val b < 128) s.

(** [needle in haystack] for strings, as a proposition. *)
Definition includes (needle haystack : string) : Prop :=
  exists pre post, haystack = (pre ++ needle ++ post)%string.

End Py.

Import Py.

Declare Scope py_scope.
Delimit Scope py_scope with py.
Notation "x <- r ;; k" := (rbind r (fun x => k))
  (at level 61, r at next level, right associativity) : py_scope.


(** ** The standard library's base64 codec

    [base64.b64encode] and [base64.b64decode] are thin wrappers over
    [binascii.b2a_base64] and [binascii.a2b_base64]; both are embedded as the
    byte-at-a-time loops of the interpreter's [binascii] module. *)

Module binascii.

Definition BASE64_PAD : byte := "="%byte.

(** Store into an [unsigned char]. *)
Definition to_uchar (x : Z) : Z := Z.land x 0xFF.

(** Store into an [unsigned int]. *)
Definition to_uint (x : Z) : Z := x mod 2 ^ 32.

Definition byte_of_uchar (x : Z) : byte :=
  match Byte.of_N (Z.to_N (to_uchar x)) with
  | Some b => b
  | None => x00
  end.

(** Modelled from the spec: the "standardized 64-symbol" alphabet of the
    text-safe encoding; the [binascii] module of the Python standard
    library is not part of the repository's sources.  The table is
    the one of standard base64 (RFC 4648, section 4). *)
Definition table_b2a_base64 : list byte :=
  list_byte_of_string
    "ABCDEFGHIJKLMNOPQRSTUVWXYZabcdefghijklmnopqrstuvwxyz0123456789+/".

Definition b2a_char (this_ch : Z) : byte :=
  nth (Z.to_nat this_ch) table_b2a_base64 x00.

(** Modelled from the spec: the inverse table of [table_b2a_base64] (the
    [binascii] module is not part of the repository's sources); bytes
    outside the alphabet map to [-1], stored as an [unsigned char]. *)
Definition table_a2b_base64 (c : byte) : Z :=
  let v := byte_val c in
  if (65 <=? v) && (v <=? 90) then v - 65
  else if (97 <=? v) && (v <=? 122) then v - 97 + 26
  else if (48 <=? v) && (v <=? 57) then v - 48 + 52
  else if v =? 43 then 62
  else if v =? 47 then 63
  else to_uchar (-1).

(** The inner loop of the encoder:
    [while (leftbits >= 6) { emit table[(leftchar >> (leftbits-6)) & 0x3f];
    leftbits -= 6; }].  It runs at most [leftbits / 6] times, so
    [Z.to_nat leftbits] rounds are always enough. *)
Fixpoint b2a_drain (rounds : nat) (leftchar leftbits : Z) : list byte * Z :=
  match rounds with
  | O => ([], leftbits)
  | S rounds' =>
      if leftbits >=? 6 then
        let this_ch := Z.land (Z.shiftr leftchar (leftbits - 6)) 0x3f in
        let '(out, lb) := b2a_drain rounds' leftchar (leftbits - 6) in
        (b2a_char this_ch :: out, lb)
      else ([], leftbits)
  end.

(** [leftchar = (leftchar << 8) | x], in an [unsigned int]. *)
Definition shift_in (leftchar x : Z) : Z :=
  to_uint (Z.lor (Z.shiftl leftchar 8) x).

(** The outer loop of the encoder over the input bytes, followed by the
    padding of the last group. *)
Fixpoint b2a_loop (bin_data : bytes) (leftchar leftbits : Z) : list byte :=
  match bin_data with
  | b :: rest =>
      let leftchar := shift_in leftchar (byte_val b) in
      let leftbits := leftbits + 8 in
      let '(out, leftbits) := b2a_drain (Z.to_nat leftbits) leftchar leftbits in
      out ++ b2a_loop rest leftchar leftbits
  | [] =>
      if leftbits =? 2 then
        [b2a_char (Z.shiftl (Z.land leftchar 3) 4); BASE64_PAD; BASE64_PAD]
      else if leftbits =? 4 then
        [b2a_char (Z.shiftl (Z.land leftchar 0xf) 2); BASE64_PAD]
      else []
  end.

(** Modelled from the spec: [binascii.b2a_base64(data, newline=...)], the
    encoder of the text-safe encoding ("standard base64"); the [binascii]
    module of the Python standard library is not part of the repository's
    sources. *)
Definition b2a_base64 (data : bytes) (newline : bool) : bytes :=
  b2a_loop data 0 0 ++ (if newline then ["010"%byte] else []).

Definition Error (msg : string) : exn := mk_exn binascii_Error msg.

(** The decoder's loop.  [quad_pos] is the position in the current group
    of four characters, [leftchar] the bits left over from the previous
    character, [pads] the number of consecutive pad characters seen,
    [nout] the number of bytes written so far. *)
Fixpoint a2b_loop (strict_mode : bool) (ascii_data : bytes)
         (quad_pos leftchar pads : Z) (padding_started : bool) (nout : Z)
  : result bytes :=
  match ascii_data with
  | [] =>
      if negb (quad_pos =? 0) then
        if quad_pos =? 1 then
          Raise (Error ("Invalid base64-encoded string: number of data characters ("
                          ++ str_int (nout / 3 * 4 + 1)
                          ++ ") cannot be 1 more than a multiple of 4")%string)
        else Raise (Error "Incorrect padding")
      else Ok []
  | c :: rest =>
      if Byte.eqb c BASE64_PAD then
        let pads' := if quad_pos >=? 2 then pads + 1 else pads in
        if (quad_pos >=? 2) && (quad_pos + pads' >=? 4) then
          if strict_mode && negb (match rest with [] => true | _ => false end)
          then Raise (Error "Excess data after padding")
          else Ok []
        else a2b_loop strict_mode rest quad_pos leftchar pads' true nout
      else
        let this_ch := table_a2b_base64 c in
        if this_ch >=? 64 then
          if strict_mode then Raise (Error "Only base64 data is allowed")
          else a2b_loop strict_mode rest quad_pos leftchar pads padding_started nout
        else if strict_mode && padding_started then
          Raise (Error "Discontinuous padding not allowed")
        else
          if quad_pos =? 0 then
            a2b_loop strict_mode rest 1 this_ch 0 padding_started nout
          else if quad_pos =? 1 then
            let o := byte_of_uchar (Z.lor (Z.shiftl leftchar 2) (Z.shiftr this_ch 4)) in
            (out <- a2b_loop strict_mode rest 2 (Z.land this_ch 0x0f) 0
                      padding_started (nout + 1) ;;
             Ok (o :: out))%py
          else if quad_pos =? 2 then
            let o := byte_of_uchar (Z.lor (Z.shiftl leftchar 4) (Z.shiftr this_ch 2)) in
            (out <- a2b_loop strict_mode rest 3 (Z.land this_ch 0x03) 0
                      padding_started (nout + 1) ;;
             Ok (o :: out))%py
          else
            let o := byte_of_uchar (Z.lor (Z.shiftl leftchar 6) this_ch) in
            (out <- a2b_loop strict_mode rest 0 0 0 padding_started (nout + 1) ;;
             Ok (o :: out))%py
  end.

(** Modelled from the spec: [binascii.a2b_base64(data, strict_mode=...)],
    the decoder of the text-safe encoding ("standard base64"), which in
    strict mode rejects text that is not well formed; the [binascii] module
    of the Python standard library is not part of the repository's
    sources. *)
Definition a2b_base64 (data : bytes) (strict_mode : bool) : result bytes :=
  match data with
  | c :: _ =>
      if strict_mode && Byte.eqb c BASE64_PAD then
        Raise (Error "Leading padding not allowed")
      else a2b_loop strict_mode data 0 0 0 false 0
  | [] => a2b_loop strict_mode data 0 0 0 false 0
  end.

End binascii.

Module base64.

(** [base64.b64encode(s)] *)
Definition b64encode (s : bytes) : bytes := binascii.b2a_base64 s false.

(** [base64.b64decode(s, validate=...)] *)
Definition b64decode (s : bytes) (validate : bool) : result bytes :=
  binascii.a2b_base64 s validate.

End base64.


(** ** Base64 as groups

    The same encoding described group by group: three bytes give four
    characters, and a last group of one or two bytes is padded.  It is the
    reference the byte-at-a-time encoder is compared with. *)

Definition sextet1 (x1 : Z) : Z := x1 / 4.
Definition sextet2 (x1 x2 : Z) : Z := (x1 mod 4) * 16 + x2 / 16.
Definition sextet3 (x2 x3 : Z) : Z := (x2 mod 16) * 4 + x3 / 64.
Definition sextet4 (x3 : Z) : Z := x3 mod 64.

Fixpoint encode_groups (bs : bytes) : list byte :=
  match bs with
  | [] => []
  | [b1] =>
      let x1 := byte_val b1 in
      [binascii.b2a_char (sextet1 x1); binascii.b2a_char (sextet2 x1 0);
       binascii.BASE64_PAD; binascii.BASE64_PAD]
  | [b1; b2] =>
      let x1 := byte_val b1 in
      let x2 := byte_val b2 in
      [binascii.b2a_char (sextet1 x1); binascii.b2a_char (sextet2 x1 x2);
       binascii.b2a_char (sextet3 x2 0); binascii.BASE64_PAD]
  | b1 :: b2 :: b3 :: rest =>
      let x1 := byte_val b1 in
      let x2 := byte_val b2 in
      let x3 := byte_val b3 in
      binascii.b2a_char (sextet1 x1) :: binascii.b2a_char (sextet2 x1 x2)
        :: binascii.b2a_char (sextet3 x2 x3) :: binascii.b2a_char (sextet4 x3)
        :: encode_groups rest
  end.

(** ** The shape of base64 text

    Text is read as a run of alphabet characters followed by the rest.
    Well-formed text (RFC 4648) is a whole number of four-character groups,
    the last one possibly ending in one or two pad characters.
    [strict_decoder_accepts] is the wider set of texts the decoder takes in
    strict mode: after a whole number of complete groups it also takes any
    number of pad characters. *)

Definition is_alphabet (c : byte) : bool :=
  existsb (Byte.eqb c) binascii.table_b2a_base64.

Definition is_pad (c : byte) : bool := Byte.eqb c binascii.BASE64_PAD.

Fixpoint alphabet_prefix (s : bytes) : bytes :=
  match s with
  | c :: s' => if is_alphabet c then c :: alphabet_prefix s' else []
  | [] => []
  end.

Fixpoint after_alphabet (s : bytes) : bytes :=
  match s with
  | c :: s' => if is_alphabet c then after_alphabet s' else s
  | [] => []
  end.

Definition well_formed_base64 (s : bytes) : bool :=
  let n := len (alphabet_prefix s) in
  let tail := after_alphabet s in
  forallb is_pad tail
  && (((n mod 4 =? 0) && (len tail =? 0))
      || ((n mod 4 =? 2) && (len tail =? 2))
      || ((n mod 4 =? 3) && (len tail =? 1))).




(** ** itext2bin.py: the framer *)

(** [_frame_with_1byte_len_header(payload)] *)
Definition _frame_with_1byte_len_header (payload : bytes) : result bytes :=
  if len payload >? 0xFF then
    Raise (mk_exn ValueError
             ("Compressed payload too large for 8-bit length header: "
                ++ str_int (len payload) ++ " bytes")%string)
  else
    (hdr <- bytes_of_ints [len payload] ;; Ok (hdr ++ payload))%py.


(** ** The environment of a call

    The module reaches outside itself in three places: [shutil.which],
    [os.environ.get] and [subprocess.run].  A [World] answers these calls;
    every call is appended to a trace, so that what a run consulted, and how
    often, can be stated.  [subprocess.run] either completes, with the
    process's exit status and captured streams, or raises (an [OSError] when
    the process cannot be started, a [ValueError] for an argument with an
    embedded null); the world decides which. *)

Record CompletedProcess := mk_proc {
  returncode : Z;
  stdout : bytes;
  stderr : bytes
}.

Record World := mk_world {
  shutil_which : string -> option string;
  os_environ_get : string -> option string;
  subprocess_run : list string -> bytes -> result CompletedProcess
}.

(** [EvRun] records that [subprocess.run] was called, whether it completed
    or raised. *)
Inductive event :=
| EvWhich (cmd : string)
| EvEnvironGet (key : string)
| EvRun (args : list string) (input : bytes).

Definition is_environ_get (e : event) : bool :=
  match e with EvEnvironGet _ => true | _ => false end.

Definition is_run (e : event) : bool :=
  match e with EvRun _ _ => true | _ => false end.

(** Computations that may call into the world and may raise. *)
Definition M (A : Type) : Type := World -> list event -> result A * list event.

Definition ret {A} (a : A) : M A := fun _ t => (Ok a, t).

Definition raise {A} (e : exn) : M A := fun _ t => (Raise e, t).

Definition bind {A B} (m : M A) (k : A -> M B) : M B :=
  fun w t =>
    match m w t with
    | (Ok a, t') => k a w t'
    | (Raise e, t') => (Raise e, t')
    end.

Definition lift {A} (r : result A) : M A := fun _ t => (r, t).

Definition which (cmd : string) : M (option string) :=
  fun w t => (Ok (shutil_which w cmd), t ++ [EvWhich cmd]).

Definition environ_get (key : string) : M (option string) :=
  fun w t => (Ok (os_environ_get w key), t ++ [EvEnvironGet key]).

Definition run (args : list string) (input : bytes) : M CompletedProcess :=
  fun w t => (subprocess_run w args input, t ++ [EvRun args input]).

Definition count_runs (t : list event) : nat := List.length (filter is_run t).

(** Is the event anything but a run whose model argument differs from [p]? *)
Definition run_uses_model (p : string) (e : event) : bool :=
  match e with
  | EvRun args _ => String.eqb (nth 1 args "") p
  | _ => true
  end.

(** What a call does from an empty trace. *)
Definition exec {A} (m : M A) (w : World) : result A * list event := m w [].

Declare Scope io_scope.
Delimit Scope io_scope with io.
Notation "x <- m ;; k" := (bind m (fun x => k))
  (at level 61, m at next level, right associativity) : io_scope.

(** The text operations of [str] and [bytes] that the embedding leaves
    abstract: [s.encode("utf-8")], which gives no bytes for a string with a
    lone surrogate, the message of the [UnicodeEncodeError] raised then,
    [b.decode("utf-8", "replace")], which never fails, and [repr] of a list
    of strings. *)
Class PyText := {
  encode_utf8 : string -> option bytes;
  encode_error_msg : string -> string;
  decode_utf8_replace : bytes -> string;
  repr_list_str : list string -> string
}.

(** [text.encode("utf-8")] *)
Definition str_encode {text_ops : PyText} (text : string) : result bytes :=
  match encode_utf8 text with
  | Some b => Ok b
  | None => Raise (mk_exn UnicodeEncodeError (encode_error_msg text))
  end.

(** ** itext2bin.py: options, invocation, orchestration *)

Record LlamaZipOptions := mk_options {
  n_ctx : Z;
  window_overlap : string;
  n_gpu_layers : Z;
  compressed_format : string
}.

(** [LlamaZipOptions()] *)
Definition LlamaZipOptions_default : LlamaZipOptions :=
  mk_options 8192 "25%" (-1) "base64".

Definition nl : string := String (ascii_of_nat 10) EmptyString.

Section Invocation.

Context {text_ops : PyText}.

(** The argument list built by [_run_llama_zip_compress_base64]. *)
Definition build_cmd (exe model_path : string) (options : LlamaZipOptions)
  : list string :=
  [ exe;
    model_path;
    "-f";
    compressed_format options;
    "--n-ctx";
    str_int (n_ctx options);
    "-w";
    window_overlap options;
    "--n-gpu-layers";
    str_int (n_gpu_layers options);
    "-c" ].

Definition not_found_msg (llama_zip_bin : string) : string :=
  ("Could not find `" ++ llama_zip_bin ++ "` on PATH. Install llama-zip and ensure the "
     ++ "CLI is available, e.g. `pip3 install .` in the llama-zip repo.")%string.

Definition model_path_msg : string :=
  "Missing model path. Provide `model_path=...` or set ITEXT2BIN_MODEL_PATH.".

Definition failed_msg (cmd : list string) (proc : CompletedProcess) : string :=
  ("llama-zip compression failed." ++ nl
     ++ "Command: " ++ repr_list_str cmd ++ nl
     ++ "Exit code: " ++ str_int (returncode proc) ++ nl
     ++ "stderr:" ++ nl ++ decode_utf8_replace (stderr proc))%string.

(** [_run_llama_zip_compress_base64(text=, model_path=, options=, llama_zip_bin=)] *)
Definition _run_llama_zip_compress_base64
           (text model_path : string) (options : LlamaZipOptions)
           (llama_zip_bin : string) : M bytes :=
  (exe <- which llama_zip_bin ;;
   if negb (opt_str_truthy exe) then
     raise (mk_exn LlamaZipNotFoundError (not_found_msg llama_zip_bin))
   else if negb (str_truthy model_path) then
     raise (mk_exn LlamaZipModelPathError model_path_msg)
   else
     let cmd := build_cmd (or_empty exe) model_path options in
     input <- lift (str_encode text) ;;
     proc <- run cmd input ;;
     if negb (returncode proc =? 0) then
       raise (mk_exn RuntimeError (failed_msg cmd proc))
     else
       let out := strip (stdout proc) in
       _ <- lift (base64.b64decode out true) ;;
       ret out)%io.

(** [IText2Bin(text, model_path=, options=, llama_zip_bin=)] *)
Definition IText2Bin (text : string) (model_path : option string)
           (options : option LlamaZipOptions) (llama_zip_bin : string)
  : M bytes :=
  (let options :=
     match options with
     | None => LlamaZipOptions_default
     | Some o => o
     end in
   model_path <-
     match model_path with
     | None => environ_get "ITEXT2BIN_MODEL_PATH"
     | Some _ => ret model_path
     end ;;
   compressed_b64 <-
     _run_llama_zip_compress_base64 text (or_empty model_path) options llama_zip_bin ;;
   payload <- lift (base64.b64decode compressed_b64 true) ;;
   framed <- lift (_frame_with_1byte_len_header payload) ;;
   ret (base64.b64encode framed))%io.

End Invocation.

(** ** Resolution of the configuration

    What [IText2Bin] hands to the invocation step. *)

Definition model_path_key : string := "ITEXT2BIN_MODEL_PATH".

(** The model location the orchestration hands to the invocation step,
    and the trace at that point. *)
Definition resolved_model_path (w : World) (model_path : option string) : string :=
  match model_path with
  | None => or_empty (os_environ_get w model_path_key)
  | Some _ => or_empty model_path
  end.

Definition resolved_trace (t : list event) (model_path : option string) : list event :=
  match model_path with
  | None => t ++ [EvEnvironGet model_path_key]
  | Some _ => t
  end.

Definition resolved_options (options : option LlamaZipOptions) : LlamaZipOptions :=
  match options with
  | None => LlamaZipOptions_default
  | Some o => o
  end.

(** ** Sample environments *)

Definition sample_text_ops : PyText :=
  {| encode_utf8 := fun s => Some (list_byte_of_string s);
     encode_error_msg := fun _ => "'utf-8' codec can't encode character";
     decode_utf8_replace := string_of_list_byte;
     repr_list_str := fun l => ("[" ++ String.concat ", " l ++ "]")%string |}.

(** The tool is installed and a run prints the base64 of [01 02 03 ff]
    followed by a newline. *)
Definition world_ok : World :=
  {| shutil_which := fun _ => Some "/usr/bin/llama-zip";
     os_environ_get := fun _ => Some "/models/q4.gguf";
     subprocess_run := fun _ _ =>
       Ok (mk_proc 0 (list_byte_of_string ("AQID/w==" ++ nl)) []) |}.

(** The tool is installed, no environment fallback is set. *)
Definition world_no_env : World :=
  {| shutil_which := fun _ => Some "/usr/bin/llama-zip";
     os_environ_get := fun _ => None;
     subprocess_run := fun _ _ =>
       Ok (mk_proc 0 (list_byte_of_string "AQID/w==") []) |}.

(** The tool is not on the search path; nothing else is configured. *)
Definition world_no_tool : World :=
  {| shutil_which := fun _ => None;
     os_environ_get := fun _ => None;
     subprocess_run := fun _ _ => Ok (mk_proc 127 [] []) |}.

(** The tool is not on the search path, the environment fallback is set. *)
Definition world_no_tool_env : World :=
  {| shutil_which := fun _ => None;
     os_environ_get := fun _ => Some "/models/q4.gguf";
     subprocess_run := fun _ _ => Ok (mk_proc 127 [] []) |}.

(** The tool is installed and exits with status 2. *)
Definition world_fail : World :=
  {| shutil_which := fun _ => Some "/usr/bin/llama-zip";
     os_environ_get := fun _ => Some "/models/q4.gguf";
     subprocess_run := fun _ _ =>
       Ok (mk_proc 2 [] (list_byte_of_string "boom")) |}.

(** The tool is installed and a run prints only whitespace. *)
Definition world_blank : World :=
  {| shutil_which := fun _ => Some "/usr/bin/llama-zip";
     os_environ_get := fun _ => Some "/models/q4.gguf";
     subprocess_run := fun _ _ =>
       Ok (mk_proc 0 (list_byte_of_string (" " ++ nl)) []) |}.

(** The tool is installed, the environment fallback is set to the empty
    string. *)
Definition world_env_empty : World :=
  {| shutil_which := fun _ => Some "/usr/bin/llama-zip";
     os_environ_get := fun _ => Some "";
     subprocess_run := fun _ _ =>
       Ok (mk_proc 0 (list_byte_of_string "AQID/w==") []) |}.

(** The tool is installed and a run prints the base64 of 256 bytes. *)
Definition world_big : World :=
  {| shutil_which := fun _ => Some "/usr/bin/llama-zip";
     os_environ_get := fun _ => Some "/models/q4.gguf";
     subprocess_run := fun _ _ =>
       Ok (mk_proc 0 (base64.b64encode (repeat "x"%byte 256)) []) |}.

(** The tool is installed and a run prints base64 broken by a blank. *)
Definition world_malformed : World :=
  {| shutil_which := fun _ => Some "/usr/bin/llama-zip";
     os_environ_get := fun _ => Some "/models/q4.gguf";
     subprocess_run := fun _ _ =>
       Ok (mk_proc 0 (list_byte_of_string "AQ ID") []) |}.


(** The tool is installed but cannot be started. *)
Definition world_exec_fails : World :=
  {| shutil_which := fun _ => Some "/usr/bin/llama-zip";
     os_environ_get := fun _ => Some "/models/q4.gguf";
     subprocess_run := fun _ _ =>
       Raise (mk_exn OSError "[Errno 8] Exec format error") |}.


(** * Properties *)

Lemma byte_val_range (b : byte) : 0 <= byte_val b < 256.
Proof.
  unfold byte_val. pose proof (Byte.to_N_bounded b). lia.
Qed.

Lemma len_cons {A} (a : A) (l : list A) : len (a :: l) = len l + 1.
Proof. unfold len. cbn [List.length]. lia. Qed.

Lemma len_nonneg {A} (l : list A) : 0 <= len l.
Proof. unfold len. lia. Qed.

Lemma bytes_of_ints_single (n : Z) :
  0 <= n < 256 ->
  exists h, bytes_of_ints [n] = Ok [h] /\ byte_val h = n.
Proof.
  intros Hn. simpl.
  replace ((0 <=? n) && (n <? 256)) with true
    by (symmetry; apply andb_true_iff; split; [apply Z.leb_le | apply Z.ltb_lt]; lia).
  destruct (Byte.of_N (Z.to_N n)) as [h|] eqn:E.
  - exists h. split; [reflexivity|].
    apply Byte.to_of_N in E. unfold byte_val. rewrite E. lia.
  - apply Byte.of_N_None_iff in E. lia.
Qed.

Lemma frame_ok_aux (p : bytes) :
  len p <= 255 ->
  exists h, _frame_with_1byte_len_header p = Ok (h :: p) /\ byte_val h = len p.
Proof.
  intros Hp. unfold _frame_with_1byte_len_header.
  assert (Hlen : 0 <= len p) by (unfold len; lia).
  replace (len p >? 255) with false
    by (symmetry; rewrite Z.gtb_ltb; apply Z.ltb_ge; lia).
  destruct (bytes_of_ints_single (len p)) as [h [E Hv]]; [lia|].
  exists h. rewrite E. simpl. split; [reflexivity | exact Hv].
Qed.

(** C1: for every payload of at most 255 bytes the framer returns a byte
    string of length [len p + 1] whose first byte has the value [len p] and
    whose remaining bytes are the payload itself. *)
Theorem frame_ok (p : bytes) :
  len p <= 255 ->
  exists h,
    _frame_with_1byte_len_header p = Ok (h :: p)
    /\ byte_val h = len p
    /\ len (h :: p) = len p + 1.
Proof.
  intros Hp. destruct (frame_ok_aux p Hp) as [h [E Hv]].
  exists h. repeat split; [exact E | exact Hv |].
  unfold len. simpl List.length. lia.
Qed.

Lemma frame_ok_witness :
  len (repeat "x"%byte 255) <= 255
  /\ exists h,
       _frame_with_1byte_len_header (repeat "x"%byte 255) = Ok (h :: repeat "x"%byte 255)
       /\ byte_val h = len (repeat "x"%byte 255)
       /\ len (h :: repeat "x"%byte 255) = len (repeat "x"%byte 255) + 1.
Proof.
  split; [vm_compute; discriminate|].
  apply (frame_ok (repeat "x"%byte 255)). vm_compute; discriminate.
Defined.

(** C2: a payload of more than 255 bytes is rejected with the oversized
    payload [ValueError]; whenever the framer returns, it returns the whole
    payload behind its length byte, never a truncated or split one. *)
Theorem frame_rejects_oversized (p : bytes) :
  (len p > 255 ->
   _frame_with_1byte_len_header p =
     Raise (mk_exn ValueError
              ("Compressed payload too large for 8-bit length header: "
                 ++ str_int (len p) ++ " bytes")%string))
  /\ (forall r, _frame_with_1byte_len_header p = Ok r ->
                len p <= 255 /\ exists h, r = h :: p /\ byte_val h = len p).
Proof.
  split.
  - intros Hp. unfold _frame_with_1byte_len_header.
    replace (len p >? 255) with true
      by (symmetry; rewrite Z.gtb_ltb; apply Z.ltb_lt; lia).
    reflexivity.
  - intros r Hr.
    destruct (Z_le_gt_dec (len p) 255) as [Hle|Hgt].
    + split; [exact Hle|].
      destruct (frame_ok_aux p Hle) as [h [E Hv]].
      rewrite E in Hr. inversion Hr; subst. exists h; auto.
    + exfalso. unfold _frame_with_1byte_len_header in Hr.
      replace (len p >? 255) with true in Hr
        by (symmetry; rewrite Z.gtb_ltb; apply Z.ltb_lt; lia).
      discriminate.
Qed.

Lemma frame_rejects_oversized_witness :
  len (repeat "x"%byte 256) > 255
  /\ _frame_with_1byte_len_header (repeat "x"%byte 256) =
       Raise (mk_exn ValueError
                "Compressed payload too large for 8-bit length header: 256 bytes").
Proof.
  split; [reflexivity|].
  apply (proj1 (frame_rejects_oversized (repeat "x"%byte 256))). reflexivity.
Defined.

(** ** The base64 round trip *)

Section Bits.

Lemma land_shiftl_low (a b k : Z) :
  0 <= k -> 0 <= b < 2 ^ k -> Z.land (Z.shiftl a k) b = 0.
Proof.
  intros Hk Hb. apply Z.bits_inj'. intros n Hn.
  rewrite Z.land_spec, Z.bits_0.
  destruct (Z.ltb_spec n k).
  - rewrite Z.shiftl_spec_low by lia. reflexivity.
  - rewrite <- (Z.mod_small b (2 ^ k)) by lia.
    rewrite Z.mod_pow2_bits_high by lia. apply andb_false_r.
Qed.

Lemma lor_shiftl_add (a b k : Z) :
  0 <= k -> 0 <= b < 2 ^ k -> Z.lor (Z.shiftl a k) b = a * 2 ^ k + b.
Proof.
  intros Hk Hb.
  rewrite <- Z.lxor_lor by (apply land_shiftl_low; assumption).
  rewrite <- Z.add_nocarry_lxor by (apply land_shiftl_low; assumption).
  rewrite Z.shiftl_mul_pow2 by assumption. reflexivity.
Qed.

Lemma land_3 (a : Z) : Z.land a 3 = a mod 4.
Proof. change 3 with (Z.ones 2). rewrite Z.land_ones by lia. reflexivity. Qed.

Lemma land_15 (a : Z) : Z.land a 15 = a mod 16.
Proof. change 15 with (Z.ones 4). rewrite Z.land_ones by lia. reflexivity. Qed.

Lemma land_63 (a : Z) : Z.land a 63 = a mod 64.
Proof. change 63 with (Z.ones 6). rewrite Z.land_ones by lia. reflexivity. Qed.

Lemma land_255 (a : Z) : Z.land a 255 = a mod 256.
Proof. change 255 with (Z.ones 8). rewrite Z.land_ones by lia. reflexivity. Qed.

End Bits.

(** Turn shifts and masks by constants into division and remainder. *)
Ltac bits_to_arith :=
  repeat first
    [ rewrite land_3 | rewrite land_15 | rewrite land_63 | rewrite land_255
    | rewrite Z.shiftr_div_pow2 by lia
    | rewrite Z.shiftl_mul_pow2 by lia ];
  change (2 ^ 0) with 1; change (2 ^ 2) with 4; change (2 ^ 4) with 16;
  change (2 ^ 6) with 64; change (2 ^ 8) with 256.

Ltac divmod_lia := Z.div_mod_to_equations; lia.

Lemma shift_in_spec (L x : Z) :
  0 <= x < 256 -> binascii.shift_in L x = (L * 256 + x) mod 4294967296.
Proof.
  intros Hx. unfold binascii.shift_in, binascii.to_uint.
  rewrite lor_shiftl_add by lia. reflexivity.
Qed.

Lemma enc_sextet1 (L x1 : Z) :
  0 <= x1 < 256 ->
  Z.land (Z.shiftr (binascii.shift_in L x1) 2) 0x3f = sextet1 x1.
Proof.
  intros H1. rewrite shift_in_spec by assumption. unfold sextet1.
  bits_to_arith. divmod_lia.
Qed.

Lemma enc_sextet2 (L x1 x2 : Z) :
  0 <= x1 < 256 -> 0 <= x2 < 256 ->
  Z.land (Z.shiftr (binascii.shift_in (binascii.shift_in L x1) x2) 4) 0x3f
  = sextet2 x1 x2.
Proof.
  intros H1 H2. rewrite !shift_in_spec by assumption. unfold sextet2.
  bits_to_arith. divmod_lia.
Qed.

Lemma enc_sextet3 (L x2 x3 : Z) :
  0 <= x2 < 256 -> 0 <= x3 < 256 ->
  Z.land (Z.shiftr (binascii.shift_in (binascii.shift_in L x2) x3) 6) 0x3f
  = sextet3 x2 x3.
Proof.
  intros H2 H3. rewrite !shift_in_spec by assumption. unfold sextet3.
  bits_to_arith. divmod_lia.
Qed.

Lemma enc_sextet4 (L x3 : Z) :
  0 <= x3 < 256 ->
  Z.land (Z.shiftr (binascii.shift_in L x3) 0) 0x3f = sextet4 x3.
Proof.
  intros H3. rewrite shift_in_spec by assumption. unfold sextet4.
  bits_to_arith. divmod_lia.
Qed.

Lemma enc_tail2 (L x1 : Z) :
  0 <= x1 < 256 ->
  Z.shiftl (Z.land (binascii.shift_in L x1) 3) 4 = sextet2 x1 0.
Proof.
  intros H1. rewrite shift_in_spec by assumption. unfold sextet2.
  bits_to_arith. divmod_lia.
Qed.

Lemma enc_tail4 (L x2 : Z) :
  0 <= x2 < 256 ->
  Z.shiftl (Z.land (binascii.shift_in L x2) 0xf) 2 = sextet3 x2 0.
Proof.
  intros H2. rewrite shift_in_spec by assumption. unfold sextet3.
  bits_to_arith. divmod_lia.
Qed.

(** One round of the encoder's outer loop, at each of the three values
    [leftbits] takes between bytes. *)
Lemma b2a_loop_at0 (b : byte) (rest : bytes) (L : Z) :
  binascii.b2a_loop (b :: rest) L 0 =
    binascii.b2a_char (Z.land (Z.shiftr (binascii.shift_in L (byte_val b)) 2) 0x3f)
      :: binascii.b2a_loop rest (binascii.shift_in L (byte_val b)) 2.
Proof. reflexivity. Qed.

Lemma b2a_loop_at2 (b : byte) (rest : bytes) (L : Z) :
  binascii.b2a_loop (b :: rest) L 2 =
    binascii.b2a_char (Z.land (Z.shiftr (binascii.shift_in L (byte_val b)) 4) 0x3f)
      :: binascii.b2a_loop rest (binascii.shift_in L (byte_val b)) 4.
Proof. reflexivity. Qed.

Lemma b2a_loop_at4 (b : byte) (rest : bytes) (L : Z) :
  binascii.b2a_loop (b :: rest) L 4 =
    binascii.b2a_char (Z.land (Z.shiftr (binascii.shift_in L (byte_val b)) 6) 0x3f)
      :: binascii.b2a_char (Z.land (Z.shiftr (binascii.shift_in L (byte_val b)) 0) 0x3f)
      :: binascii.b2a_loop rest (binascii.shift_in L (byte_val b)) 0.
Proof. reflexivity. Qed.

(** Induction over a list three elements at a time. *)
Lemma list_ind3 {A} (P : list A -> Prop) :
  P [] ->
  (forall a, P [a]) ->
  (forall a b, P [a; b]) ->
  (forall a b c l, P l -> P (a :: b :: c :: l)) ->
  forall l, P l.
Proof.
  intros H0 H1 H2 H3.
  fix IH 1. intros [|a [|b [|c l]]].
  - exact H0.
  - apply H1.
  - apply H2.
  - apply H3, IH.
Qed.

(** The byte-at-a-time encoder produces the group-by-group encoding,
    whatever is left in the high bits of its accumulator. *)
Lemma b2a_loop_groups (bs : bytes) :
  forall L, binascii.b2a_loop bs L 0 = encode_groups bs.
Proof.
  induction bs as [|b1|b1 b2|b1 b2 b3 rest IH] using list_ind3; intros L.
  - reflexivity.
  - rewrite b2a_loop_at0. cbn [binascii.b2a_loop encode_groups].
    change (2 =? 2) with true. cbv iota.
    rewrite enc_sextet1, enc_tail2 by apply byte_val_range. reflexivity.
  - rewrite b2a_loop_at0, b2a_loop_at2. cbn [binascii.b2a_loop encode_groups].
    change (4 =? 2) with false. change (4 =? 4) with true. cbv iota.
    rewrite enc_sextet1, enc_sextet2, enc_tail4 by apply byte_val_range.
    reflexivity.
  - rewrite b2a_loop_at0, b2a_loop_at2, b2a_loop_at4.
    rewrite enc_sextet1, enc_sextet2, enc_sextet3, enc_sextet4
      by apply byte_val_range.
    rewrite IH. reflexivity.
Qed.

Lemma b64encode_groups (bs : bytes) : base64.b64encode bs = encode_groups bs.
Proof.
  unfold base64.b64encode, binascii.b2a_base64.
  rewrite app_nil_r. apply b2a_loop_groups.
Qed.

Lemma encode_groups_length (bs : bytes) :
  len (encode_groups bs) = 4 * ((len bs + 2) / 3).
Proof.
  induction bs as [|b1|b1 b2|b1 b2 b3 rest IH] using list_ind3.
  - reflexivity.
  - reflexivity.
  - reflexivity.
  - cbn [encode_groups]. rewrite !len_cons, IH. divmod_lia.
Qed.

(** The two tables are inverse to each other on the 64 sextets, and no
    alphabet character is the pad character. *)
Lemma sextet_cases (P : Z -> Prop) :
  (forall n : nat, (n < 64)%nat -> P (Z.of_nat n)) ->
  forall s, 0 <= s < 64 -> P s.
Proof.
  intros H s Hs. rewrite <- (Z2Nat.id s) by lia. apply H. lia.
Qed.

Lemma table_a2b_b2a (s : Z) :
  0 <= s < 64 -> binascii.table_a2b_base64 (binascii.b2a_char s) = s.
Proof.
  revert s. apply sextet_cases. intros n Hn.
  do 64 (destruct n as [|n]; [reflexivity|]). lia.
Qed.

Lemma b2a_char_not_pad (s : Z) :
  0 <= s < 64 -> Byte.eqb (binascii.b2a_char s) binascii.BASE64_PAD = false.
Proof.
  revert s. apply sextet_cases. intros n Hn.
  do 64 (destruct n as [|n]; [reflexivity|]). lia.
Qed.

Lemma sextet1_range (x1 : Z) : 0 <= x1 < 256 -> 0 <= sextet1 x1 < 64.
Proof. unfold sextet1. intros. divmod_lia. Qed.

Lemma sextet2_range (x1 x2 : Z) : 0 <= x2 < 256 -> 0 <= sextet2 x1 x2 < 64.
Proof. unfold sextet2. intros. divmod_lia. Qed.

Lemma sextet3_range (x2 x3 : Z) : 0 <= x3 < 256 -> 0 <= sextet3 x2 x3 < 64.
Proof. unfold sextet3. intros. divmod_lia. Qed.

Lemma sextet4_range (x3 : Z) : 0 <= sextet4 x3 < 64.
Proof. unfold sextet4. divmod_lia. Qed.

(** What the decoder does with one character of the alphabet, before any
    padding was seen. *)
Lemma a2b_loop_data (s : Z) (rest : bytes) (q lc pads nout : Z) :
  0 <= s < 64 ->
  binascii.a2b_loop true (binascii.b2a_char s :: rest) q lc pads false nout =
    if q =? 0 then binascii.a2b_loop true rest 1 s 0 false nout
    else if q =? 1 then
      (out <- binascii.a2b_loop true rest 2 (Z.land s 0x0f) 0 false (nout + 1) ;;
       Ok (binascii.byte_of_uchar (Z.lor (Z.shiftl lc 2) (Z.shiftr s 4)) :: out))%py
    else if q =? 2 then
      (out <- binascii.a2b_loop true rest 3 (Z.land s 0x03) 0 false (nout + 1) ;;
       Ok (binascii.byte_of_uchar (Z.lor (Z.shiftl lc 4) (Z.shiftr s 2)) :: out))%py
    else
      (out <- binascii.a2b_loop true rest 0 0 0 false (nout + 1) ;;
       Ok (binascii.byte_of_uchar (Z.lor (Z.shiftl lc 6) s) :: out))%py.
Proof.
  intros Hs. cbn [binascii.a2b_loop].
  rewrite b2a_char_not_pad, table_a2b_b2a by assumption.
  replace (s >=? 64) with false by (symmetry; rewrite Z.geb_leb; apply Z.leb_gt; lia).
  reflexivity.
Qed.

Lemma byte_of_uchar_val (x : Z) (b : byte) :
  binascii.to_uchar x = byte_val b -> binascii.byte_of_uchar x = b.
Proof.
  intros H. unfold binascii.byte_of_uchar. rewrite H.
  unfold byte_val. rewrite N2Z.id, Byte.of_to_N. reflexivity.
Qed.

(** The three bytes the decoder rebuilds from the four sextets of a group. *)
Lemma dec_byte1 (x1 x2 : Z) :
  0 <= x1 < 256 -> 0 <= x2 < 256 ->
  binascii.to_uchar (Z.lor (Z.shiftl (sextet1 x1) 2)
                           (Z.shiftr (sextet2 x1 x2) 4)) = x1.
Proof.
  intros H1 H2. unfold binascii.to_uchar, sextet1, sextet2.
  rewrite Z.shiftr_div_pow2 by lia. change (2 ^ 4) with 16.
  rewrite lor_shiftl_add by (change (2 ^ 2) with 4; divmod_lia).
  rewrite land_255. change (2 ^ 2) with 4. divmod_lia.
Qed.

Lemma dec_byte2 (x1 x2 x3 : Z) :
  0 <= x2 < 256 -> 0 <= x3 < 256 ->
  binascii.to_uchar (Z.lor (Z.shiftl (Z.land (sextet2 x1 x2) 0x0f) 4)
                           (Z.shiftr (sextet3 x2 x3) 2)) = x2.
Proof.
  intros H2 H3. unfold binascii.to_uchar, sextet2, sextet3.
  rewrite Z.shiftr_div_pow2 by lia. change (2 ^ 2) with 4.
  rewrite lor_shiftl_add by (change (2 ^ 4) with 16; divmod_lia).
  rewrite land_255, land_15. change (2 ^ 4) with 16. divmod_lia.
Qed.

Lemma dec_byte3 (x2 x3 : Z) :
  0 <= x3 < 256 ->
  binascii.to_uchar (Z.lor (Z.shiftl (Z.land (sextet3 x2 x3) 0x03) 6)
                           (sextet4 x3)) = x3.
Proof.
  intros H3. unfold binascii.to_uchar, sextet3, sextet4.
  rewrite lor_shiftl_add by (change (2 ^ 6) with 64; divmod_lia).
  rewrite land_255, land_3. change (2 ^ 6) with 64. divmod_lia.
Qed.

(** The padding that closes a group of two or three characters. *)
Lemma a2b_loop_pad2 (lc nout : Z) :
  binascii.a2b_loop true [binascii.BASE64_PAD; binascii.BASE64_PAD] 2 lc 0 false nout
  = Ok [].
Proof. reflexivity. Qed.

Lemma a2b_loop_pad1 (lc nout : Z) :
  binascii.a2b_loop true [binascii.BASE64_PAD] 3 lc 0 false nout = Ok [].
Proof. reflexivity. Qed.

Ltac sextet_ranges :=
  first [ apply sextet1_range | apply sextet2_range
        | apply sextet3_range | apply sextet4_range ];
  first [ apply byte_val_range | lia ].

(** The strict decoder inverts the group-by-group encoding. *)
Lemma a2b_loop_groups (bs : bytes) :
  forall nout, binascii.a2b_loop true (encode_groups bs) 0 0 0 false nout = Ok bs.
Proof.
  induction bs as [|b1|b1 b2|b1 b2 b3 rest IH] using list_ind3; intros nout.
  - reflexivity.
  - cbn [encode_groups].
    rewrite a2b_loop_data by sextet_ranges. change (0 =? 0) with true. cbv iota.
    rewrite a2b_loop_data by sextet_ranges.
    change (1 =? 0) with false. change (1 =? 1) with true. cbv iota.
    rewrite a2b_loop_pad2. cbn [rbind].
    rewrite (byte_of_uchar_val _ b1)
      by (apply dec_byte1; first [apply byte_val_range | lia]).
    reflexivity.
  - cbn [encode_groups].
    rewrite a2b_loop_data by sextet_ranges. change (0 =? 0) with true. cbv iota.
    rewrite a2b_loop_data by sextet_ranges.
    change (1 =? 0) with false. change (1 =? 1) with true. cbv iota.
    rewrite a2b_loop_data by sextet_ranges.
    change (2 =? 0) with false. change (2 =? 1) with false.
    change (2 =? 2) with true. cbv iota.
    rewrite a2b_loop_pad1. cbn [rbind].
    rewrite (byte_of_uchar_val _ b1)
      by (apply dec_byte1; first [apply byte_val_range | lia]).
    rewrite (byte_of_uchar_val _ b2)
      by (apply dec_byte2; first [apply byte_val_range | lia]).
    reflexivity.
  - cbn [encode_groups].
    rewrite a2b_loop_data by sextet_ranges. change (0 =? 0) with true. cbv iota.
    rewrite a2b_loop_data by sextet_ranges.
    change (1 =? 0) with false. change (1 =? 1) with true. cbv iota.
    rewrite a2b_loop_data by sextet_ranges.
    change (2 =? 0) with false. change (2 =? 1) with false.
    change (2 =? 2) with true. cbv iota.
    rewrite a2b_loop_data by sextet_ranges.
    change (3 =? 0) with false. change (3 =? 1) with false.
    change (3 =? 2) with false. cbv iota.
    rewrite IH. cbn [rbind].
    rewrite (byte_of_uchar_val _ b1)
      by (apply dec_byte1; first [apply byte_val_range | lia]).
    rewrite (byte_of_uchar_val _ b2)
      by (apply dec_byte2; first [apply byte_val_range | lia]).
    rewrite (byte_of_uchar_val _ b3)
      by (apply dec_byte3; first [apply byte_val_range | lia]).
    reflexivity.
Qed.

(** The encoding never starts with the pad character. *)
Lemma encode_groups_head (bs : bytes) :
  match encode_groups bs with
  | [] => True
  | c :: _ => Byte.eqb c binascii.BASE64_PAD = false
  end.
Proof.
  destruct bs as [|b1 [|b2 [|b3 rest]]]; cbn [encode_groups];
    [exact I | | | ]; apply b2a_char_not_pad; sextet_ranges.
Qed.

(** C4: decoding the base64 encoding of any byte string, with validation,
    gives the byte string back; in particular for a framed payload. *)
Theorem b64decode_b64encode (b : bytes) :
  base64.b64decode (base64.b64encode b) true = Ok b
  /\ match _frame_with_1byte_len_header b with
     | Ok framed => base64.b64decode (base64.b64encode framed) true = Ok framed
     | Raise _ => True
     end.
Proof.
  assert (RT : forall x, base64.b64decode (base64.b64encode x) true = Ok x).
  { intros x. rewrite b64encode_groups.
    unfold base64.b64decode, binascii.a2b_base64.
    pose proof (encode_groups_head x) as Hh.
    pose proof (a2b_loop_groups x 0) as Hd.
    destruct (encode_groups x) as [|c cs].
    - exact Hd.
    - rewrite Hh. cbn [andb]. exact Hd. }
  split; [apply RT|].
  destruct (_frame_with_1byte_len_header b); [apply RT | exact I].
Qed.

(** The third scenario of the test suite: the framed ["hello\0world"] is
    twelve bytes long and survives the round trip. *)
Example roundtrip_hello_world :
  let payload := list_byte_of_string "hello" ++ [x00] ++ list_byte_of_string "world" in
  exists framed,
    _frame_with_1byte_len_header payload = Ok framed
    /\ len payload = 11 /\ len framed = 12
    /\ base64.b64decode (base64.b64encode framed) true = Ok framed.
Proof.
  eexists. repeat split; vm_compute; reflexivity.
Qed.

(** ** Trimming *)








(** ** Errors of the decoder *)

Lemma a2b_loop_error_class (data : bytes) :
  forall strict q lc pads ps nout e,
    binascii.a2b_loop strict data q lc pads ps nout = Raise e ->
    exn_cls e = binascii_Error.
Proof.
  induction data as [|c rest IH]; intros strict q lc pads ps nout e H;
    cbn [binascii.a2b_loop] in H.
  - repeat match type of H with
           | context [if ?b then _ else _] => destruct b
           end; inversion H; reflexivity.
  - repeat match type of H with
           | context [if ?b then _ else _] => destruct b
           end;
      try (inversion H; reflexivity);
      try (eapply IH; eassumption);
      match type of H with
      | context [rbind ?m _] =>
          destruct m eqn:Hm; cbn [rbind] in H;
          [discriminate | inversion H; subst; eapply IH; eassumption]
      end.
Qed.

Lemma b64decode_error_class (data : bytes) (validate : bool) (e : exn) :
  base64.b64decode data validate = Raise e -> exn_cls e = binascii_Error.
Proof.
  unfold base64.b64decode, binascii.a2b_base64. intros H.
  destruct data as [|c rest].
  - eapply a2b_loop_error_class; eassumption.
  - destruct (validate && Byte.eqb c binascii.BASE64_PAD).
    + inversion H. reflexivity.
    + eapply a2b_loop_error_class; eassumption.
Qed.

(** ** What the strict decoder accepts *)





Lemma b2a_char_alphabet (s : Z) :
  0 <= s < 64 -> is_alphabet (binascii.b2a_char s) = true.
Proof.
  revert s. apply sextet_cases. intros n Hn.
  do 64 (destruct n as [|n]; [reflexivity|]). lia.
Qed.









(** Every encoding is well formed. *)
Lemma encode_groups_well_formed (bs : bytes) :
  well_formed_base64 (encode_groups bs) = true.
Proof.
  unfold well_formed_base64.
  induction bs as [|b1|b1 b2|b1 b2 b3 rest IH] using list_ind3.
  - reflexivity.
  - cbn [encode_groups alphabet_prefix after_alphabet].
    rewrite !b2a_char_alphabet by sextet_ranges. reflexivity.
  - cbn [encode_groups alphabet_prefix after_alphabet].
    rewrite !b2a_char_alphabet by sextet_ranges. reflexivity.
  - cbn [encode_groups alphabet_prefix after_alphabet].
    rewrite !b2a_char_alphabet by sextet_ranges.
    rewrite !len_cons.
    replace ((len (alphabet_prefix (encode_groups rest)) + 1 + 1 + 1 + 1) mod 4)
      with (len (alphabet_prefix (encode_groups rest)) mod 4) by divmod_lia.
    exact IH.
Qed.

(** ** The output alphabet *)

Lemma b2a_char_ascii (s : Z) : byte_val (binascii.b2a_char s) < 128.
Proof.
  unfold binascii.b2a_char. generalize (Z.to_nat s) as n. intros n.
  do 64 (destruct n as [|n]; [reflexivity|]).
  destruct n; reflexivity.
Qed.

Lemma encode_groups_ascii (bs : bytes) : is_ascii (encode_groups bs).
Proof.
  unfold is_ascii.
  induction bs as [|b1|b1 b2|b1 b2 b3 rest IH] using list_ind3;
    cbn [encode_groups];
    repeat first [ apply Forall_nil | exact IH
                 | apply Forall_cons; [first [apply b2a_char_ascii | reflexivity]|] ].
Qed.

Lemma frame_error_class (p : bytes) (e : exn) :
  _frame_with_1byte_len_header p = Raise e -> exn_cls e = ValueError.
Proof.
  intros H. destruct (Z_le_gt_dec (len p) 255) as [Hle|Hgt].
  - destruct (frame_ok_aux p Hle) as [h [E _]]. congruence.
  - unfold _frame_with_1byte_len_header in H.
    replace (len p >? 255) with true in H
      by (symmetry; rewrite Z.gtb_ltb; apply Z.ltb_lt; lia).
    inversion H. reflexivity.
Qed.

(** ** Substrings *)

Lemma string_app_assoc (a b c : string) :
  ((a ++ b) ++ c)%string = (a ++ b ++ c)%string.
Proof.
  induction a as [|x a IH]; cbn; [reflexivity | rewrite IH; reflexivity].
Qed.

Lemma includes_here (x post : string) : includes x (x ++ post)%string.
Proof. exists EmptyString, post. reflexivity. Qed.

Lemma includes_end (x : string) : includes x x.
Proof.
  exists EmptyString, EmptyString. cbn.
  induction x as [|c x IH]; cbn; [reflexivity | f_equal; exact IH].
Qed.

Lemma includes_later (x p s : string) : includes x s -> includes x (p ++ s)%string.
Proof.
  intros [pre [post E]]. exists (p ++ pre)%string, post.
  rewrite E, string_app_assoc. reflexivity.
Qed.

Create HintDb includes.
#[local] Hint Resolve includes_here includes_end includes_later : includes.

(** ** The invocation step and the orchestration *)

Section Orchestration.

Context {text_ops : PyText}.

(** The invocation step, outcome by outcome. *)
Lemma run_unfold (text mp : string) (o : LlamaZipOptions) (bin : string)
      (w : World) (t : list event) :
  _run_llama_zip_compress_base64 text mp o bin w t =
    let exe := shutil_which w bin in
    let t1 := t ++ [EvWhich bin] in
    if negb (opt_str_truthy exe) then
      (Raise (mk_exn LlamaZipNotFoundError (not_found_msg bin)), t1)
    else if negb (str_truthy mp) then
      (Raise (mk_exn LlamaZipModelPathError model_path_msg), t1)
    else
      let cmd := build_cmd (or_empty exe) mp o in
      match str_encode text with
      | Raise e => (Raise e, t1)
      | Ok input =>
          let t2 := t1 ++ [EvRun cmd input] in
          match subprocess_run w cmd input with
          | Raise e => (Raise e, t2)
          | Ok proc =>
              if negb (returncode proc =? 0) then
                (Raise (mk_exn RuntimeError (failed_msg cmd proc)), t2)
              else
                match base64.b64decode (strip (stdout proc)) true with
                | Ok _ => (Ok (strip (stdout proc)), t2)
                | Raise e => (Raise e, t2)
                end
          end
      end.
Proof.
  unfold _run_llama_zip_compress_base64, bind, which, run, raise, lift, ret.
  cbv zeta.
  destruct (negb (opt_str_truthy (shutil_which w bin))); [reflexivity|].
  destruct (negb (str_truthy mp)); [reflexivity|].
  destruct (str_encode text) as [input|e]; [|reflexivity].
  destruct (subprocess_run w _ input) as [proc|e]; [|reflexivity].
  destruct (negb (returncode proc =? 0)); [reflexivity|].
  destruct (base64.b64decode _ true); reflexivity.
Qed.

(** The invocation step once the executable and the model are there, the
    text is encoded and [subprocess.run] has completed. *)
Lemma run_completed (text mp : string) (o : LlamaZipOptions) (bin : string)
      (w : World) (t : list event) (exe : string) (input : bytes)
      (proc : CompletedProcess) :
  shutil_which w bin = Some exe -> str_truthy exe = true ->
  str_truthy mp = true ->
  encode_utf8 text = Some input ->
  subprocess_run w (build_cmd exe mp o) input = Ok proc ->
  _run_llama_zip_compress_base64 text mp o bin w t =
    let t2 := t ++ [EvWhich bin; EvRun (build_cmd exe mp o) input] in
    if returncode proc =? 0 then
      match base64.b64decode (strip (stdout proc)) true with
      | Ok _ => (Ok (strip (stdout proc)), t2)
      | Raise e => (Raise e, t2)
      end
    else (Raise (mk_exn RuntimeError (failed_msg (build_cmd exe mp o) proc)), t2).
Proof.
  intros Hw He Hmp Hin Hrun. rewrite run_unfold. cbv zeta.
  rewrite Hw. cbn [opt_str_truthy]. rewrite He, Hmp. cbn [negb].
  assert (Ho : or_empty (Some exe) = exe) by (destruct exe; reflexivity).
  rewrite Ho. unfold str_encode. rewrite Hin, Hrun, <- app_assoc. cbn [app].
  destruct (returncode proc =? 0); reflexivity.
Qed.

Lemma IText2Bin_unfold (text : string) (model_path : option string)
      (options : option LlamaZipOptions) (bin : string)
      (w : World) (t : list event) :
  IText2Bin text model_path options bin w t =
    match _run_llama_zip_compress_base64 text (resolved_model_path w model_path)
            (resolved_options options) bin w (resolved_trace t model_path) with
    | (Ok c, t') =>
        ((payload <- base64.b64decode c true ;;
          framed <- _frame_with_1byte_len_header payload ;;
          Ok (base64.b64encode framed))%py, t')
    | (Raise e, t') => (Raise e, t')
    end.
Proof.
  unfold IText2Bin, resolved_model_path, resolved_trace, resolved_options,
    model_path_key.
  destruct model_path as [p|];
    unfold bind, environ_get, ret, lift; cbv zeta;
    match goal with
    | |- context [_run_llama_zip_compress_base64 ?a ?b ?c ?d ?e ?f] =>
        destruct (_run_llama_zip_compress_base64 a b c d e f) as [[c0|e0] t'];
        [ destruct (base64.b64decode c0 true) as [payload|e1];
          [ cbn [rbind]; destruct (_frame_with_1byte_len_header payload) | ]
        | ]
    end; reflexivity.
Qed.

Lemma or_empty_truthy (s : string) : or_empty (Some s) = s.
Proof. destruct s; reflexivity. Qed.

Lemma run_trace (text mp : string) (o : LlamaZipOptions) (bin : string)
      (w : World) (t : list event) :
  snd (_run_llama_zip_compress_base64 text mp o bin w t) = t ++ [EvWhich bin]
  \/ (opt_str_truthy (shutil_which w bin) = true /\ str_truthy mp = true
      /\ exists input,
           encode_utf8 text = Some input
           /\ snd (_run_llama_zip_compress_base64 text mp o bin w t) =
                t ++ [EvWhich bin;
                      EvRun (build_cmd (or_empty (shutil_which w bin)) mp o) input]).
Proof.
  rewrite run_unfold. cbv zeta.
  destruct (opt_str_truthy (shutil_which w bin)); cbn [negb]; [|left; reflexivity].
  destruct (str_truthy mp); cbn [negb]; [|left; reflexivity].
  unfold str_encode.
  destruct (encode_utf8 text) as [input|]; [|left; reflexivity].
  right. split; [reflexivity|]. split; [reflexivity|].
  exists input. split; [reflexivity|].
  destruct (subprocess_run w _ input) as [proc|e];
    [destruct (negb (returncode proc =? 0));
       [|destruct (base64.b64decode _ true)]|];
    cbn [snd]; rewrite <- app_assoc; reflexivity.
Qed.

Lemma run_ok_validated (text mp : string) (o : LlamaZipOptions) (bin : string)
      (w : World) (t t' : list event) (c : bytes) :
  _run_llama_zip_compress_base64 text mp o bin w t = (Ok c, t') ->
  exists payload, base64.b64decode c true = Ok payload.
Proof.
  rewrite run_unfold. cbv zeta.
  destruct (negb (opt_str_truthy (shutil_which w bin))); [discriminate|].
  destruct (negb (str_truthy mp)); [discriminate|].
  destruct (str_encode text) as [input|e0]; [|discriminate].
  destruct (subprocess_run w _ input) as [proc|e0]; [|discriminate].
  destruct (negb (returncode proc =? 0)); [discriminate|].
  destruct (base64.b64decode _ true) as [payload|e] eqn:E; [|discriminate].
  intros H. inversion H; subst. exists payload. exact E.
Qed.

Lemma run_error_class (text mp : string) (o : LlamaZipOptions) (bin : string)
      (w : World) (t : list event) (e : exn) :
  fst (_run_llama_zip_compress_base64 text mp o bin w t) = Raise e ->
  exn_cls e = LlamaZipModelPathError ->
  opt_str_truthy (shutil_which w bin) = true.
Proof.
  rewrite run_unfold. cbv zeta.
  destruct (opt_str_truthy (shutil_which w bin)); cbn [negb]; [reflexivity|].
  cbn [fst]. intros H Hc. inversion H; subst. discriminate.
Qed.

Lemma count_runs_app (t u : list event) :
  count_runs (t ++ u) = (count_runs t + count_runs u)%nat.
Proof. unfold count_runs. rewrite filter_app, length_app. reflexivity. Qed.

Lemma resolved_trace_runs (model_path : option string) :
  count_runs (resolved_trace [] model_path) = 0%nat.
Proof. destruct model_path; reflexivity. Qed.


(** C6: when the child process exits with a nonzero status, the invocation
    step raises a [RuntimeError] whose message contains the command, the
    exit status and the decoded standard error; the process was run once,
    and the orchestration hands the same error to its caller. *)
Theorem run_nonzero_exit_fails
        (text mp : string) (o : LlamaZipOptions) (bin : string)
        (w : World) (t : list event) (exe : string)
        (input : bytes) (proc : CompletedProcess) :
  shutil_which w bin = Some exe -> str_truthy exe = true ->
  str_truthy mp = true ->
  encode_utf8 text = Some input ->
  subprocess_run w (build_cmd exe mp o) input = Ok proc ->
  returncode proc <> 0 ->
  let cmd := build_cmd exe mp o in
  let err := mk_exn RuntimeError (failed_msg cmd proc) in
  _run_llama_zip_compress_base64 text mp o bin w t =
    (Raise err, t ++ [EvWhich bin; EvRun cmd input])
  /\ includes (repr_list_str cmd) (exn_msg err)
  /\ includes (str_int (returncode proc)) (exn_msg err)
  /\ includes (decode_utf8_replace (stderr proc)) (exn_msg err)
  /\ IText2Bin text (Some mp) (Some o) bin w t =
       (Raise err, t ++ [EvWhich bin; EvRun cmd input])
  /\ count_runs (snd (exec (IText2Bin text (Some mp) (Some o) bin) w)) = 1%nat.
Proof.
  intros Hw He Hmp Hin Hrun Hrc cmd err.
  assert (R : forall t0, _run_llama_zip_compress_base64 text mp o bin w t0 =
                (Raise err, t0 ++ [EvWhich bin; EvRun cmd input])).
  { intros t0. rewrite (run_completed _ _ _ _ _ _ exe input proc Hw He Hmp Hin Hrun).
    cbv zeta.
    replace (returncode proc =? 0) with false
      by (symmetry; apply Z.eqb_neq; exact Hrc).
    reflexivity. }
  assert (I2 : forall t0, IText2Bin text (Some mp) (Some o) bin w t0 =
                (Raise err, t0 ++ [EvWhich bin; EvRun cmd input])).
  { intros t0. rewrite IText2Bin_unfold.
    cbn [resolved_model_path resolved_options resolved_trace].
    rewrite or_empty_truthy, R. reflexivity. }
  split; [apply R|].
  unfold err, failed_msg; cbn [exn_msg].
  repeat split; auto 12 with includes.
  unfold exec. rewrite I2. reflexivity.
Qed.

(** C3: when the invocation step succeeds with base64 text [c], the
    orchestration returns the base64 encoding of the framed decoding of
    [c], as ASCII bytes; a failure of the invocation step or of the framer
    reaches the caller unchanged, and the process is run at most once. *)
Theorem IText2Bin_pipeline
        (text : string) (model_path : option string)
        (options : option LlamaZipOptions) (bin : string) (w : World) :
  let step :=
    _run_llama_zip_compress_base64 text (resolved_model_path w model_path)
      (resolved_options options) bin w (resolved_trace [] model_path) in
  let call := exec (IText2Bin text model_path options bin) w in
  match step with
  | (Ok c, t) =>
      exists payload,
        base64.b64decode c true = Ok payload
        /\ call =
             ((framed <- _frame_with_1byte_len_header payload ;;
               Ok (base64.b64encode framed))%py, t)
        /\ match _frame_with_1byte_len_header payload with
           | Ok framed =>
               call = (Ok (base64.b64encode framed), t)
               /\ is_ascii (base64.b64encode framed)
           | Raise e => call = (Raise e, t)
           end
  | (Raise e, t) => call = (Raise e, t)
  end
  /\ (count_runs (snd call) <= 1)%nat.
Proof.
  intros step call. split.
  - unfold call, exec. rewrite IText2Bin_unfold. fold step.
    destruct step as [[c|e] t] eqn:E; [|reflexivity].
    destruct (run_ok_validated _ _ _ _ _ _ _ _ E) as [payload Hp].
    exists payload. rewrite Hp. cbn [rbind]. repeat split.
    destruct (_frame_with_1byte_len_header payload) as [framed|e];
      [split; [reflexivity|] | reflexivity].
    rewrite b64encode_groups. apply encode_groups_ascii.
  - assert (Hs : snd call = snd step).
    { unfold call, exec. rewrite IText2Bin_unfold. fold step.
      destruct step as [[c|e] t]; reflexivity. }
    rewrite Hs. unfold step.
    destruct (run_trace text (resolved_model_path w model_path)
                (resolved_options options) bin w (resolved_trace [] model_path))
      as [H | [_ [_ [input [_ H]]]]];
      rewrite H, count_runs_app, resolved_trace_runs; cbn; lia.
Qed.

(** C7, amended: with no [model_path] argument and no environment
    fallback, and with the executable found on the search path, the call
    raises [LlamaZipModelPathError] with a message that names both the
    parameter and the environment variable; no process is run. *)
Theorem missing_model_path_error
        (text : string) (options : option LlamaZipOptions) (bin : string)
        (w : World) (exe : string) :
  os_environ_get w model_path_key = None ->
  shutil_which w bin = Some exe -> str_truthy exe = true ->
  exec (IText2Bin text None options bin) w =
    (Raise (mk_exn LlamaZipModelPathError model_path_msg),
     [EvEnvironGet model_path_key; EvWhich bin])
  /\ includes "model_path" model_path_msg
  /\ includes "ITEXT2BIN_MODEL_PATH" model_path_msg.
Proof.
  intros Henv Hw He. split.
  - unfold exec. rewrite IText2Bin_unfold.
    cbn [resolved_model_path resolved_trace]. rewrite Henv.
    rewrite run_unfold. cbv zeta. rewrite Hw. cbn [opt_str_truthy].
    rewrite He. reflexivity.
  - split.
    + exists "Missing model path. Provide `",
             "=...` or set ITEXT2BIN_MODEL_PATH.". reflexivity.
    + exists "Missing model path. Provide `model_path=...` or set ", ".".
      reflexivity.
Qed.

(** C8: an explicit [model_path] wins.  When it is supplied, the call is
    the pipeline run on exactly that value, the environment is never
    read, and a process that is run gets that value as its model argument;
    the environment value is read, and used, when [model_path] is [None]. *)
Theorem explicit_model_path_wins
        (text p : string) (options : option LlamaZipOptions) (bin : string)
        (w : World) (t : list event) :
  IText2Bin text (Some p) options bin w t =
    (c <- _run_llama_zip_compress_base64 text p (resolved_options options) bin ;;
     payload <- lift (base64.b64decode c true) ;;
     framed <- lift (_frame_with_1byte_len_header payload) ;;
     ret (base64.b64encode framed))%io w t
  /\ existsb is_environ_get (snd (exec (IText2Bin text (Some p) options bin) w)) = false
  /\ forallb (run_uses_model p) (snd (exec (IText2Bin text (Some p) options bin) w)) = true
  /\ IText2Bin text None options bin w t =
       (c <- _run_llama_zip_compress_base64 text
               (or_empty (os_environ_get w model_path_key))
               (resolved_options options) bin ;;
        payload <- lift (base64.b64decode c true) ;;
        framed <- lift (_frame_with_1byte_len_header payload) ;;
        ret (base64.b64encode framed))%io w (t ++ [EvEnvironGet model_path_key])
  /\ existsb is_environ_get (snd (exec (IText2Bin text None options bin) w)) = true.
Proof.
  assert (Hs : forall mp0, snd (exec (IText2Bin text mp0 options bin) w) =
            snd (_run_llama_zip_compress_base64 text (resolved_model_path w mp0)
                   (resolved_options options) bin w (resolved_trace [] mp0))).
  { intros mp0. unfold exec. rewrite IText2Bin_unfold.
    destruct (_run_llama_zip_compress_base64 _ _ _ _ _ _) as [[c|e] t']; reflexivity. }
  split; [|split; [|split; [|split]]].
  - unfold IText2Bin, resolved_options, bind, ret. rewrite or_empty_truthy.
    reflexivity.
  - rewrite Hs. cbn [resolved_trace resolved_model_path].
    destruct (run_trace text (or_empty (Some p)) (resolved_options options) bin w [])
      as [H | [_ [_ [input [_ H]]]]]; rewrite H; reflexivity.
  - rewrite Hs. cbn [resolved_trace resolved_model_path].
    rewrite or_empty_truthy.
    destruct (run_trace text p (resolved_options options) bin w [])
      as [H | [_ [_ [input [_ H]]]]]; rewrite H; [reflexivity|].
    cbn [app forallb run_uses_model build_cmd nth].
    rewrite String.eqb_refl. reflexivity.
  - unfold IText2Bin, resolved_options, bind, ret, environ_get, model_path_key.
    reflexivity.
  - rewrite Hs. cbn [resolved_trace resolved_model_path].
    destruct (run_trace text (or_empty (os_environ_get w model_path_key))
                (resolved_options options) bin w ([] ++ [EvEnvironGet model_path_key]))
      as [H | [_ [_ [input [_ H]]]]]; rewrite H; reflexivity.
Qed.

(** C9, amended: an explicit empty [model_path] suppresses the
    environment fallback; with the executable found on the search path the
    call raises [LlamaZipModelPathError] whatever the environment holds,
    without reading it and without running a process. *)
Theorem empty_model_path_suppresses_fallback
        (text : string) (options : option LlamaZipOptions) (bin : string)
        (w : World) (exe : string) :
  shutil_which w bin = Some exe -> str_truthy exe = true ->
  exec (IText2Bin text (Some "") options bin) w =
    (Raise (mk_exn LlamaZipModelPathError model_path_msg), [EvWhich bin]).
Proof.
  intros Hw He. unfold exec. rewrite IText2Bin_unfold.
  cbn [resolved_model_path resolved_trace or_empty opt_str_truthy str_truthy].
  rewrite run_unfold. cbv zeta. rewrite Hw. cbn [opt_str_truthy].
  rewrite He. reflexivity.
Qed.

(** C10: the executable lookup comes first.  When the executable is not
    found the call raises [LlamaZipNotFoundError] whatever the model
    location is, and a [LlamaZipModelPathError] is only ever raised after
    the executable was found; both for the invocation step and for the
    orchestration. *)
Theorem tool_lookup_precedes_model_check
        (text mp : string) (model_path : option string)
        (o : LlamaZipOptions) (options : option LlamaZipOptions)
        (bin : string) (w : World) (t : list event) :
  (opt_str_truthy (shutil_which w bin) = false ->
     _run_llama_zip_compress_base64 text mp o bin w t =
       (Raise (mk_exn LlamaZipNotFoundError (not_found_msg bin)), t ++ [EvWhich bin])
     /\ fst (IText2Bin text model_path options bin w t) =
          Raise (mk_exn LlamaZipNotFoundError (not_found_msg bin)))
  /\ (forall e,
        fst (_run_llama_zip_compress_base64 text mp o bin w t) = Raise e ->
        exn_cls e = LlamaZipModelPathError ->
        opt_str_truthy (shutil_which w bin) = true)
  /\ (forall e,
        fst (IText2Bin text model_path options bin w t) = Raise e ->
        exn_cls e = LlamaZipModelPathError ->
        opt_str_truthy (shutil_which w bin) = true).
Proof.
  split; [|split].
  - intros Hw. split.
    + rewrite run_unfold. cbv zeta. rewrite Hw. reflexivity.
    + rewrite IText2Bin_unfold, run_unfold. cbv zeta. rewrite Hw. reflexivity.
  - apply run_error_class.
  - intros e. rewrite IText2Bin_unfold.
    destruct (_run_llama_zip_compress_base64 _ _ _ _ _ _) as [[c|e0] t'] eqn:E.
    + cbn [fst]. intros H Hc. exfalso.
      destruct (base64.b64decode c true) as [payload|e1] eqn:E1; cbn [rbind] in H.
      * destruct (_frame_with_1byte_len_header payload) as [framed|e2] eqn:E2;
          cbn [rbind] in H; [discriminate|].
        inversion H; subst. apply frame_error_class in E2. congruence.
      * inversion H; subst. apply b64decode_error_class in E1. congruence.
    + cbn [fst]. intros H Hc. inversion H; subst.
      eapply run_error_class; [rewrite E; reflexivity | exact Hc].
Qed.

End Orchestration.

(** ** The theorems at the sample environments *)

(** The integration scenario: a stub tool prints the base64 of
    [01 02 03 ff] and a newline and exits with status 0; the call returns
    the base64 of [04 01 02 03 ff] after one environment lookup, one
    executable lookup and one run. *)
Example IText2Bin_stub_tool :
  exec (@IText2Bin sample_text_ops "hi" None None "llama-zip") world_ok =
    (Ok (list_byte_of_string "BAECA/8="),
     [EvEnvironGet "ITEXT2BIN_MODEL_PATH";
      EvWhich "llama-zip";
      EvRun ["/usr/bin/llama-zip"; "/models/q4.gguf"; "-f"; "base64";
             "--n-ctx"; "8192"; "-w"; "25%"; "--n-gpu-layers"; "-1"; "-c"]
            (list_byte_of_string "hi")]).
Proof. vm_compute. reflexivity. Qed.

(** The first scenario of the test suite. *)
Example frame_four_bytes :
  _frame_with_1byte_len_header [x01; x02; x03; xff] = Ok [x04; x01; x02; x03; xff].
Proof. reflexivity. Qed.



Lemma run_nonzero_exit_fails_witness :
  subprocess_run world_fail
    (build_cmd "/usr/bin/llama-zip" "/models/q4.gguf" LlamaZipOptions_default)
    (list_byte_of_string "hi")
  = Ok (mk_proc 2 [] (list_byte_of_string "boom"))
  /\ exists msg,
       fst (exec (@_run_llama_zip_compress_base64 sample_text_ops
                    "hi" "/models/q4.gguf" LlamaZipOptions_default "llama-zip") world_fail)
       = Raise (mk_exn RuntimeError msg)
       /\ includes "Exit code: 2" msg /\ includes "boom" msg.
Proof.
  split; [reflexivity|].
  assert (Hrc : returncode (mk_proc 2 [] (list_byte_of_string "boom")) <> 0)
    by (vm_compute; discriminate).
  destruct (@run_nonzero_exit_fails sample_text_ops
              "hi" "/models/q4.gguf" LlamaZipOptions_default "llama-zip"
              world_fail [] "/usr/bin/llama-zip" (list_byte_of_string "hi")
              (mk_proc 2 [] (list_byte_of_string "boom"))
              eq_refl eq_refl eq_refl eq_refl eq_refl Hrc)
    as [Hrun [_ [_ [Herr _]]]].
  eexists. split; [unfold exec; rewrite Hrun; reflexivity|].
  split; [|exact Herr].
  exists ("llama-zip compression failed." ++ nl ++ "Command: "
            ++ @repr_list_str sample_text_ops
                 (build_cmd "/usr/bin/llama-zip" "/models/q4.gguf"
                    LlamaZipOptions_default)
            ++ nl)%string,
         (nl ++ "stderr:" ++ nl ++ "boom")%string.
  reflexivity.
Defined.

Lemma missing_model_path_error_witness :
  os_environ_get world_no_env model_path_key = None
  /\ shutil_which world_no_env "llama-zip" = Some "/usr/bin/llama-zip"
  /\ exec (@IText2Bin sample_text_ops "hi" None None "llama-zip") world_no_env
     = (Raise (mk_exn LlamaZipModelPathError model_path_msg),
        [EvEnvironGet model_path_key; EvWhich "llama-zip"]).
Proof.
  split; [reflexivity|]. split; [reflexivity|].
  exact (proj1 (@missing_model_path_error sample_text_ops "hi" None "llama-zip"
                  world_no_env "/usr/bin/llama-zip" eq_refl eq_refl eq_refl)).
Defined.

(** With the tool missing, a call without any model location raises the
    tool-not-found error, not the missing-configuration error. *)
Lemma missing_model_path_tool_absent :
  os_environ_get world_no_tool model_path_key = None
  /\ fst (exec (@IText2Bin sample_text_ops "hi" None None "llama-zip") world_no_tool)
     = Raise (mk_exn LlamaZipNotFoundError (@not_found_msg "llama-zip"))
  /\ ~ (exists e,
          fst (exec (@IText2Bin sample_text_ops "hi" None None "llama-zip") world_no_tool)
          = Raise e
          /\ exn_cls e = LlamaZipModelPathError).
Proof.
  split; [reflexivity|]. split; [reflexivity|].
  intros [e [H Hc]]. vm_compute in H. inversion H; subst. discriminate.
Qed.

Lemma empty_model_path_suppresses_fallback_witness :
  shutil_which world_ok "llama-zip" = Some "/usr/bin/llama-zip"
  /\ os_environ_get world_ok model_path_key = Some "/models/q4.gguf"
  /\ exec (@IText2Bin sample_text_ops "hi" (Some "") None "llama-zip") world_ok
     = (Raise (mk_exn LlamaZipModelPathError model_path_msg), [EvWhich "llama-zip"]).
Proof.
  split; [reflexivity|]. split; [reflexivity|].
  exact (@empty_model_path_suppresses_fallback sample_text_ops "hi" None "llama-zip"
           world_ok "/usr/bin/llama-zip" eq_refl eq_refl).
Defined.

(** With the tool missing, an explicit empty [model_path] raises the
    tool-not-found error although the environment names a model. *)
Lemma empty_model_path_tool_absent :
  os_environ_get world_no_tool_env model_path_key = Some "/models/q4.gguf"
  /\ fst (exec (@IText2Bin sample_text_ops "hi" (Some "") None "llama-zip")
            world_no_tool_env)
     = Raise (mk_exn LlamaZipNotFoundError (@not_found_msg "llama-zip"))
  /\ ~ (exists e,
          fst (exec (@IText2Bin sample_text_ops "hi" (Some "") None "llama-zip")
                 world_no_tool_env)
          = Raise e
          /\ exn_cls e = LlamaZipModelPathError).
Proof.
  split; [reflexivity|]. split; [reflexivity|].
  intros [e [H Hc]]. vm_compute in H. inversion H; subst. discriminate.
Qed.

Lemma tool_lookup_precedes_model_check_witness :
  opt_str_truthy (shutil_which world_no_tool "llama-zip") = false
  /\ fst (exec (@_run_llama_zip_compress_base64 sample_text_ops
                  "hi" "" LlamaZipOptions_default "llama-zip") world_no_tool)
     = Raise (mk_exn LlamaZipNotFoundError (@not_found_msg "llama-zip"))
  /\ opt_str_truthy (shutil_which world_no_env "llama-zip") = true.
Proof.
  split; [reflexivity|]. split.
  - unfold exec.
    rewrite (proj1 (proj1 (@tool_lookup_precedes_model_check sample_text_ops
                             "hi" "" None LlamaZipOptions_default None
                             "llama-zip" world_no_tool []) eq_refl)).
    reflexivity.
  - apply (proj1 (proj2 (@tool_lookup_precedes_model_check sample_text_ops
                           "hi" "" None LlamaZipOptions_default None
                           "llama-zip" world_no_env []))
             (mk_exn LlamaZipModelPathError model_path_msg));
      reflexivity.
Defined.


(** * Further properties of the framer and of the pipeline *)

(** ** The framer *)

Lemma frame_ok_inv (p r : bytes) :
  _frame_with_1byte_len_header p = Ok r ->
  len p <= 255 /\ exists h, r = h :: p /\ byte_val h = len p.
Proof.
  intros Hr. destruct (Z_le_gt_dec (len p) 255) as [Hle|Hgt].
  - split; [exact Hle|].
    destruct (frame_ok_aux p Hle) as [h [E Hv]].
    rewrite E in Hr. inversion Hr; subst. exists h. auto.
  - unfold _frame_with_1byte_len_header in Hr.
    replace (len p >? 255) with true in Hr
      by (symmetry; rewrite Z.gtb_ltb; apply Z.ltb_lt; lia).
    discriminate.
Qed.

(** X1: whatever the framer returns is between 1 and 256 bytes long, its
    first byte is its own length minus one, and the rest is the payload. *)
Theorem frame_header_invariant (p r : bytes) :
  _frame_with_1byte_len_header p = Ok r ->
  1 <= len r <= 256
  /\ byte_val (hd x00 r) = len r - 1
  /\ tl r = p.
Proof.
  intros Hr. destruct (frame_ok_inv p r Hr) as [Hle [h [E Hv]]]. subst r.
  rewrite len_cons. pose proof (len_nonneg p). cbn [hd tl].
  repeat split; lia.
Qed.

Lemma frame_header_invariant_witness :
  _frame_with_1byte_len_header [x0a; x0b] = Ok [x02; x0a; x0b]
  /\ byte_val (hd x00 [x02; x0a; x0b]) = len [x02; x0a; x0b] - 1.
Proof.
  split; [reflexivity|].
  exact (proj1 (proj2 (frame_header_invariant [x0a; x0b] [x02; x0a; x0b] eq_refl))).
Defined.

(** X2: the framer is injective: two payloads with the same frame are the
    same payload. *)
Theorem frame_injective (p q r : bytes) :
  _frame_with_1byte_len_header p = Ok r ->
  _frame_with_1byte_len_header q = Ok r ->
  p = q.
Proof.
  intros Hp Hq.
  destruct (frame_ok_inv p r Hp) as [_ [h [E _]]].
  destruct (frame_ok_inv q r Hq) as [_ [h' [E' _]]].
  congruence.
Qed.

Lemma frame_injective_witness :
  _frame_with_1byte_len_header [x0a] = Ok [x01; x0a]
  /\ [x0a] = [x0a].
Proof.
  split; [reflexivity|].
  exact (frame_injective [x0a] [x0a] [x01; x0a] eq_refl eq_refl).
Defined.

(** ** The codec *)

Lemma b64_roundtrip (x : bytes) :
  base64.b64decode (base64.b64encode x) true = Ok x.
Proof.
  rewrite b64encode_groups.
  unfold base64.b64decode, binascii.a2b_base64.
  pose proof (encode_groups_head x) as Hh.
  pose proof (a2b_loop_groups x 0) as Hd.
  destruct (encode_groups x) as [|c cs]; [exact Hd|].
  rewrite Hh. cbn [andb]. exact Hd.
Qed.

Lemma isspace_not_alphabet (c : byte) :
  isspace c = true ->
  Byte.eqb c binascii.BASE64_PAD = false
  /\ (binascii.table_a2b_base64 c >=? 64) = true.
Proof.
  destruct c; cbn [isspace]; intros H; try discriminate H; split; reflexivity.
Qed.

(** In strict mode a byte outside the alphabet anywhere in the text makes
    the decoder raise. *)
Lemma a2b_loop_strict_rejects (bad : byte) (data : bytes) :
  Byte.eqb bad binascii.BASE64_PAD = false ->
  (binascii.table_a2b_base64 bad >=? 64) = true ->
  In bad data ->
  forall q lc pads ps nout,
  exists e, binascii.a2b_loop true data q lc pads ps nout = Raise e.
Proof.
  intros Hpad Htab. induction data as [|c rest IH]; intros Hin q lc pads ps nout.
  - destruct Hin.
  - cbn [binascii.a2b_loop].
    destruct (Byte.eqb c binascii.BASE64_PAD) eqn:Ec.
    + assert (Hrest : In bad rest).
      { destruct Hin as [->|H]; [congruence | exact H]. }
      destruct ((q >=? 2) && (q + (if q >=? 2 then pads + 1 else pads) >=? 4)).
      * destruct rest as [|c' rest']; [destruct Hrest|].
        cbn [andb negb]. eexists. reflexivity.
      * apply IH, Hrest.
    + destruct (binascii.table_a2b_base64 c >=? 64) eqn:Et.
      * eexists. reflexivity.
      * assert (Hrest : In bad rest).
        { destruct Hin as [->|H]; [congruence | exact H]. }
        cbn [andb]. destruct ps; [eexists; reflexivity|].
        repeat match goal with
               | |- context [if ?b then _ else _] => destruct b
               end;
          try (apply IH, Hrest);
          match goal with
          | |- context [binascii.a2b_loop true rest ?a ?b ?c ?d ?e] =>
              destruct (IH Hrest a b c d e) as [e0 He0]; rewrite He0;
              eexists; reflexivity
          end.
Qed.

Lemma b64decode_strict_rejects (bad : byte) (data : bytes) :
  Byte.eqb bad binascii.BASE64_PAD = false ->
  (binascii.table_a2b_base64 bad >=? 64) = true ->
  In bad data ->
  exists e, base64.b64decode data true = Raise e.
Proof.
  intros Hpad Htab Hin. unfold base64.b64decode, binascii.a2b_base64.
  destruct data as [|c rest]; [destruct Hin|].
  cbn [andb]. destruct (Byte.eqb c binascii.BASE64_PAD).
  - eexists. reflexivity.
  - apply (a2b_loop_strict_rejects bad); assumption.
Qed.

(** ** Trimming of blank output *)

Lemma lstrip_all_space (s : bytes) : all_space s -> lstrip s = [].
Proof.
  unfold all_space. induction s as [|b s IH]; [reflexivity|].
  cbn [forallb lstrip]. intros H. apply andb_true_iff in H as [Hb Hs].
  rewrite Hb. apply IH, Hs.
Qed.

Lemma strip_all_space (s : bytes) : all_space s -> strip s = [].
Proof.
  intros H. unfold strip. rewrite lstrip_all_space by exact H. reflexivity.
Qed.

(** ** The invocation step and the orchestration, continued *)

Section PipelineProperties.

Context {text_ops : PyText}.

Lemma truthy_found (o : option string) :
  opt_str_truthy o = true -> exists exe, o = Some exe /\ str_truthy exe = true.
Proof.
  destruct o as [exe|]; cbn [opt_str_truthy]; [|discriminate].
  intros H. exists exe. auto.
Qed.

Lemma IText2Bin_trace (text : string) (model_path : option string)
      (options : option LlamaZipOptions) (bin : string) (w : World) :
  snd (exec (IText2Bin text model_path options bin) w) =
    snd (_run_llama_zip_compress_base64 text (resolved_model_path w model_path)
           (resolved_options options) bin w (resolved_trace [] model_path)).
Proof.
  unfold exec. rewrite IText2Bin_unfold.
  destruct (_run_llama_zip_compress_base64 _ _ _ _ _ _) as [[c|e] t']; reflexivity.
Qed.

(** What a successful call went through. *)
Lemma IText2Bin_ok_inv (text : string) (model_path : option string)
      (options : option LlamaZipOptions) (bin : string) (w : World)
      (r : bytes) :
  fst (exec (IText2Bin text model_path options bin) w) = Ok r ->
  exists c t payload h,
    _run_llama_zip_compress_base64 text (resolved_model_path w model_path)
      (resolved_options options) bin w (resolved_trace [] model_path) = (Ok c, t)
    /\ base64.b64decode c true = Ok payload
    /\ len payload <= 255
    /\ byte_val h = len payload
    /\ r = base64.b64encode (h :: payload).
Proof.
  unfold exec. rewrite IText2Bin_unfold.
  destruct (_run_llama_zip_compress_base64 _ _ _ _ _ _) as [[c|e] t] eqn:E;
    cbn [fst]; [|discriminate].
  destruct (base64.b64decode c true) as [payload|e] eqn:Ed;
    cbn [rbind]; [|discriminate].
  destruct (_frame_with_1byte_len_header payload) as [framed|e] eqn:Ef;
    cbn [rbind]; [|discriminate].
  intros H. inversion H; subst.
  destruct (frame_ok_inv payload framed Ef) as [Hle [h [-> Hv]]].
  exists c, t, payload, h. auto.
Qed.

(** X3: the bytes a successful call returns decode, with validation, to the
    length byte followed by the payload the tool printed: a receiver gets
    the compressed bytes back, and their number, which is at most 255. *)
Theorem IText2Bin_output_decodes
        (text : string) (model_path : option string)
        (options : option LlamaZipOptions) (bin : string) (w : World)
        (r : bytes) :
  fst (exec (IText2Bin text model_path options bin) w) = Ok r ->
  exists c payload h,
    fst (_run_llama_zip_compress_base64 text (resolved_model_path w model_path)
           (resolved_options options) bin w (resolved_trace [] model_path)) = Ok c
    /\ base64.b64decode c true = Ok payload
    /\ base64.b64decode r true = Ok (h :: payload)
    /\ byte_val h = len payload
    /\ len payload <= 255.
Proof.
  intros H.
  destruct (IText2Bin_ok_inv _ _ _ _ _ _ H) as [c [t [payload [h [E [Ed [Hle [Hv ->]]]]]]]].
  exists c, payload, h. rewrite E. repeat split; auto.
  apply b64_roundtrip.
Qed.

(** X4: a successful call returns between 4 and 344 bytes, a multiple of
    four. *)
Theorem IText2Bin_output_size
        (text : string) (model_path : option string)
        (options : option LlamaZipOptions) (bin : string) (w : World)
        (r : bytes) :
  fst (exec (IText2Bin text model_path options bin) w) = Ok r ->
  4 <= len r <= 344 /\ len r mod 4 = 0.
Proof.
  intros H.
  destruct (IText2Bin_ok_inv _ _ _ _ _ _ H) as [c [t [payload [h [_ [_ [Hle [_ ->]]]]]]]].
  rewrite b64encode_groups, encode_groups_length, len_cons.
  pose proof (len_nonneg payload). divmod_lia.
Qed.

(** X5: when the tool succeeds but prints more than 255 bytes of compressed
    data, the call raises the framer's [ValueError]; the process has been
    run once by then. *)
Theorem IText2Bin_oversized_output
        (text : string) (model_path : option string)
        (options : option LlamaZipOptions) (bin : string) (w : World)
        (exe : string) (input : bytes) (proc : CompletedProcess)
        (payload : bytes) :
  shutil_which w bin = Some exe -> str_truthy exe = true ->
  str_truthy (resolved_model_path w model_path) = true ->
  encode_utf8 text = Some input ->
  let cmd := build_cmd exe (resolved_model_path w model_path)
               (resolved_options options) in
  subprocess_run w cmd input = Ok proc ->
  returncode proc = 0 ->
  base64.b64decode (strip (stdout proc)) true = Ok payload ->
  len payload > 255 ->
  exec (IText2Bin text model_path options bin) w =
    (Raise (mk_exn ValueError
              ("Compressed payload too large for 8-bit length header: "
                 ++ str_int (len payload) ++ " bytes")%string),
     resolved_trace [] model_path ++ [EvWhich bin; EvRun cmd input])
  /\ count_runs (snd (exec (IText2Bin text model_path options bin) w)) = 1%nat.
Proof.
  intros Hw He Hmp Hin cmd Hrun Hrc Hd Hlen.
  assert (E : exec (IText2Bin text model_path options bin) w =
    (Raise (mk_exn ValueError
              ("Compressed payload too large for 8-bit length header: "
                 ++ str_int (len payload) ++ " bytes")%string),
     resolved_trace [] model_path ++ [EvWhich bin; EvRun cmd input])).
  { unfold exec. rewrite IText2Bin_unfold.
    rewrite (run_completed _ _ _ _ _ _ exe input proc Hw He Hmp Hin Hrun).
    cbv zeta. rewrite Hrc. cbn [Z.eqb]. rewrite Hd, Hd. cbn [rbind].
    unfold _frame_with_1byte_len_header.
    replace (len payload >? 255) with true
      by (symmetry; rewrite Z.gtb_ltb; apply Z.ltb_lt; lia).
    reflexivity. }
  split; [exact E|].
  rewrite E. cbn [snd]. rewrite count_runs_app, resolved_trace_runs. reflexivity.
Qed.

(** X6: the invocation step returns a value only when the executable was
    found, the model path is not empty, the text could be encoded,
    [subprocess.run] completed and the process exited with status 0; the
    value is then the trimmed standard output, and [subprocess.run] was
    called exactly once. *)
Theorem run_ok_inv
        (text mp : string) (o : LlamaZipOptions) (bin : string)
        (w : World) (t t' : list event) (c : bytes) :
  _run_llama_zip_compress_base64 text mp o bin w t = (Ok c, t') ->
  exists exe input proc,
    shutil_which w bin = Some exe /\ str_truthy exe = true
    /\ str_truthy mp = true
    /\ encode_utf8 text = Some input
    /\ subprocess_run w (build_cmd exe mp o) input = Ok proc
    /\ returncode proc = 0
    /\ c = strip (stdout proc)
    /\ t' = t ++ [EvWhich bin; EvRun (build_cmd exe mp o) input].
Proof.
  intros H.
  destruct (opt_str_truthy (shutil_which w bin)) eqn:Hw;
    [|rewrite run_unfold in H; cbv zeta in H; rewrite Hw in H; discriminate].
  destruct (truthy_found _ Hw) as [exe [Hexe He]].
  destruct (str_truthy mp) eqn:Hmp;
    [|rewrite run_unfold in H; cbv zeta in H; rewrite Hw, Hmp in H; discriminate].
  destruct (encode_utf8 text) as [input|] eqn:Hin;
    [|rewrite run_unfold in H; cbv zeta in H; unfold str_encode in H;
      rewrite Hw, Hmp, Hin in H; discriminate].
  destruct (subprocess_run w (build_cmd exe mp o) input) as [proc|e] eqn:Hrun.
  - rewrite (run_completed _ _ _ _ _ _ exe input proc Hexe He Hmp Hin Hrun) in H.
    cbv zeta in H. exists exe, input, proc.
    destruct (returncode proc =? 0) eqn:Hrc; [|discriminate].
    destruct (base64.b64decode _ true); [|discriminate].
    inversion H; subst. apply Z.eqb_eq in Hrc. repeat split; auto.
  - rewrite run_unfold in H. cbv zeta in H. unfold str_encode in H.
    rewrite Hw, Hmp, Hin in H. cbn [negb] in H.
    rewrite Hexe, or_empty_truthy, Hrun in H. discriminate.
Qed.

(** X7: when the tool succeeds and prints nothing but whitespace, the
    invocation step returns the empty byte string, and the call returns the
    base64 of the single length byte 0. *)
Theorem IText2Bin_blank_output
        (text : string) (model_path : option string)
        (options : option LlamaZipOptions) (bin : string) (w : World)
        (exe : string) (input : bytes) (proc : CompletedProcess) :
  shutil_which w bin = Some exe -> str_truthy exe = true ->
  str_truthy (resolved_model_path w model_path) = true ->
  encode_utf8 text = Some input ->
  subprocess_run w (build_cmd exe (resolved_model_path w model_path)
                      (resolved_options options)) input = Ok proc ->
  returncode proc = 0 ->
  all_space (stdout proc) ->
  fst (_run_llama_zip_compress_base64 text (resolved_model_path w model_path)
         (resolved_options options) bin w (resolved_trace [] model_path)) = Ok []
  /\ fst (exec (IText2Bin text model_path options bin) w) =
       Ok (list_byte_of_string "AA==").
Proof.
  intros Hw He Hmp Hin Hrun Hrc Hsp.
  assert (R : fst (_run_llama_zip_compress_base64 text (resolved_model_path w model_path)
                     (resolved_options options) bin w (resolved_trace [] model_path))
              = Ok []).
  { rewrite (run_completed _ _ _ _ _ _ exe input proc Hw He Hmp Hin Hrun).
    cbv zeta. rewrite Hrc. cbn [Z.eqb].
    rewrite (strip_all_space _ Hsp). reflexivity. }
  split; [exact R|].
  unfold exec. rewrite IText2Bin_unfold.
  destruct (_run_llama_zip_compress_base64 _ _ _ _ _ _) as [[c|e] t'];
    cbn [fst] in R; inversion R; subst. reflexivity.
Qed.

(** X8: an environment fallback that is set to the empty string counts as
    no model location: without a [model_path] argument, and with the
    executable found, the call raises [LlamaZipModelPathError] and runs no
    process. *)
Theorem empty_environment_value_is_missing
        (text : string) (options : option LlamaZipOptions) (bin : string)
        (w : World) (exe : string) :
  os_environ_get w model_path_key = Some "" ->
  shutil_which w bin = Some exe -> str_truthy exe = true ->
  exec (IText2Bin text None options bin) w =
    (Raise (mk_exn LlamaZipModelPathError model_path_msg),
     [EvEnvironGet model_path_key; EvWhich bin]).
Proof.
  intros Henv Hw He. unfold exec. rewrite IText2Bin_unfold.
  cbn [resolved_model_path resolved_trace]. rewrite Henv.
  rewrite run_unfold. cbv zeta. rewrite Hw. cbn [opt_str_truthy].
  rewrite He. reflexivity.
Qed.


(** X10: the text reaches the process on its standard input only.  Every
    call of [subprocess.run] in the trace has the encoded text as input and
    the eleven arguments built from the executable, the model location and
    the options; the same call on any other text that can be encoded runs
    the same command. *)
Theorem text_goes_to_stdin
        (text : string) (model_path : option string)
        (options : option LlamaZipOptions) (bin : string) (w : World)
        (args : list string) (input : bytes) :
  In (EvRun args input) (snd (exec (IText2Bin text model_path options bin) w)) ->
  encode_utf8 text = Some input
  /\ args = build_cmd (or_empty (shutil_which w bin))
              (resolved_model_path w model_path) (resolved_options options)
  /\ len args = 11
  /\ forall text' input',
       encode_utf8 text' = Some input' ->
       In (EvRun args input')
          (snd (exec (IText2Bin text' model_path options bin) w)).
Proof.
  rewrite IText2Bin_trace. intros Hin.
  assert (Hnot : forall a i, ~ In (EvRun a i) (resolved_trace [] model_path)).
  { intros a i H. destruct model_path; cbn in H; [destruct H|].
    destruct H as [H|[]]. discriminate. }
  destruct (run_trace text (resolved_model_path w model_path)
              (resolved_options options) bin w (resolved_trace [] model_path))
    as [H | [Hw [Hmp [input0 [Henc H]]]]]; rewrite H in Hin;
    apply in_app_or in Hin as [Hin|Hin];
    try (exfalso; exact (Hnot _ _ Hin)).
  - destruct Hin as [Hin|[]]. discriminate.
  - destruct Hin as [Hin|[Hin|[]]]; [discriminate|].
    inversion Hin; subst. repeat split; [exact Henc|].
    intros text' input' Henc'. rewrite IText2Bin_trace.
    rewrite run_unfold. cbv zeta. unfold str_encode.
    rewrite Hw, Hmp, Henc'. cbn [negb].
    destruct (subprocess_run w _ input') as [proc|e];
      [destruct (negb (returncode proc =? 0));
         [|destruct (base64.b64decode _ true)]|];
      cbn [snd]; apply in_or_app; right; left; reflexivity.
Qed.

(** X11: when the tool succeeds but its trimmed output is not strict
    base64, the call raises the decoder's error, which is a [ValueError],
    after the one run. *)
Theorem IText2Bin_malformed_output
        (text : string) (model_path : option string)
        (options : option LlamaZipOptions) (bin : string) (w : World)
        (exe : string) (input : bytes) (proc : CompletedProcess) (e : exn) :
  shutil_which w bin = Some exe -> str_truthy exe = true ->
  str_truthy (resolved_model_path w model_path) = true ->
  encode_utf8 text = Some input ->
  let cmd := build_cmd exe (resolved_model_path w model_path)
               (resolved_options options) in
  subprocess_run w cmd input = Ok proc ->
  returncode proc = 0 ->
  base64.b64decode (strip (stdout proc)) true = Raise e ->
  exec (IText2Bin text model_path options bin) w =
    (Raise e, resolved_trace [] model_path ++ [EvWhich bin; EvRun cmd input])
  /\ exn_cls e = binascii_Error
  /\ isinstance e ValueError = true.
Proof.
  intros Hw He Hmp Hin cmd Hrun Hrc Hd.
  assert (Hc : exn_cls e = binascii_Error)
    by (eapply b64decode_error_class; eassumption).
  split; [|split; [exact Hc | unfold isinstance; rewrite Hc; reflexivity]].
  unfold exec. rewrite IText2Bin_unfold.
  rewrite (run_completed _ _ _ _ _ _ exe input proc Hw He Hmp Hin Hrun).
  cbv zeta. rewrite Hrc. cbn [Z.eqb]. rewrite Hd. reflexivity.
Qed.

(** X12: trimming only helps at the ends.  When the tool succeeds and its
    trimmed output still contains a whitespace byte, the invocation step
    raises the decoder's error. *)
Theorem run_rejects_inner_whitespace
        (text mp : string) (o : LlamaZipOptions) (bin : string)
        (w : World) (t : list event) (exe : string)
        (input : bytes) (proc : CompletedProcess) (c : byte) :
  shutil_which w bin = Some exe -> str_truthy exe = true ->
  str_truthy mp = true ->
  encode_utf8 text = Some input ->
  subprocess_run w (build_cmd exe mp o) input = Ok proc ->
  returncode proc = 0 ->
  isspace c = true -> In c (strip (stdout proc)) ->
  exists e,
    fst (_run_llama_zip_compress_base64 text mp o bin w t) = Raise e
    /\ exn_cls e = binascii_Error.
Proof.
  intros Hw He Hmp Hin Hrun Hrc Hsp Hc.
  destruct (isspace_not_alphabet c Hsp) as [Hpad Htab].
  destruct (b64decode_strict_rejects c _ Hpad Htab Hc) as [e Hd].
  exists e. split; [|eapply b64decode_error_class; eassumption].
  rewrite (run_completed _ _ _ _ _ _ exe input proc Hw He Hmp Hin Hrun).
  cbv zeta. rewrite Hrc. cbn [Z.eqb]. rewrite Hd. reflexivity.
Qed.


(** X14: when [subprocess.run] itself raises, the call raises the same
    exception, after that one call. *)
Theorem subprocess_error_propagates
        (text : string) (model_path : option string)
        (options : option LlamaZipOptions) (bin : string) (w : World)
        (exe : string) (input : bytes) (e : exn) :
  shutil_which w bin = Some exe -> str_truthy exe = true ->
  str_truthy (resolved_model_path w model_path) = true ->
  encode_utf8 text = Some input ->
  let cmd := build_cmd exe (resolved_model_path w model_path)
               (resolved_options options) in
  subprocess_run w cmd input = Raise e ->
  exec (IText2Bin text model_path options bin) w =
    (Raise e, resolved_trace [] model_path ++ [EvWhich bin; EvRun cmd input]).
Proof.
  intros Hw He Hmp Hin cmd Hrun.
  unfold exec. rewrite IText2Bin_unfold, run_unfold. cbv zeta.
  rewrite Hw. cbn [opt_str_truthy]. rewrite He, Hmp. cbn [negb].
  rewrite or_empty_truthy. unfold str_encode. rewrite Hin.
  fold cmd. rewrite Hrun, <- app_assoc. reflexivity.
Qed.

End PipelineProperties.

(** ** The further properties at the sample environments *)

Lemma IText2Bin_output_decodes_witness :
  fst (exec (@IText2Bin sample_text_ops "hi" None None "llama-zip") world_ok)
    = Ok (list_byte_of_string "BAECA/8=")
  /\ exists c payload h,
       base64.b64decode c true = Ok payload
       /\ base64.b64decode (list_byte_of_string "BAECA/8=") true = Ok (h :: payload)
       /\ byte_val h = len payload.
Proof.
  split; [reflexivity|].
  destruct (@IText2Bin_output_decodes sample_text_ops "hi" None None "llama-zip"
              world_ok (list_byte_of_string "BAECA/8=") eq_refl)
    as [c [payload [h [_ [Hc [Hr [Hv _]]]]]]].
  exists c, payload, h. auto.
Defined.

Lemma IText2Bin_output_size_witness :
  fst (exec (@IText2Bin sample_text_ops "hi" None None "llama-zip") world_ok)
    = Ok (list_byte_of_string "BAECA/8=")
  /\ 4 <= len (list_byte_of_string "BAECA/8=") <= 344
  /\ len (list_byte_of_string "BAECA/8=") mod 4 = 0.
Proof.
  split; [reflexivity|].
  exact (@IText2Bin_output_size sample_text_ops "hi" None None "llama-zip"
           world_ok (list_byte_of_string "BAECA/8=") eq_refl).
Defined.

Lemma IText2Bin_oversized_output_witness :
  len (repeat "x"%byte 256) > 255
  /\ fst (exec (@IText2Bin sample_text_ops "hi" None None "llama-zip") world_big)
     = Raise (mk_exn ValueError
                "Compressed payload too large for 8-bit length header: 256 bytes").
Proof.
  split; [reflexivity|].
  assert (Hd : base64.b64decode
                 (strip (stdout (mk_proc 0 (base64.b64encode (repeat "x"%byte 256)) [])))
                 true
               = Ok (repeat "x"%byte 256))
    by (vm_compute; reflexivity).
  rewrite (proj1 (@IText2Bin_oversized_output sample_text_ops "hi" None None
                    "llama-zip" world_big "/usr/bin/llama-zip"
                    (list_byte_of_string "hi")
                    (mk_proc 0 (base64.b64encode (repeat "x"%byte 256)) [])
                    (repeat "x"%byte 256)
                    eq_refl eq_refl eq_refl eq_refl eq_refl eq_refl Hd eq_refl)).
  reflexivity.
Defined.

Lemma run_ok_inv_witness :
  exists exe input proc,
    shutil_which world_ok "llama-zip" = Some exe
    /\ subprocess_run world_ok
         (build_cmd exe "/models/q4.gguf" LlamaZipOptions_default) input = Ok proc
    /\ list_byte_of_string "AQID/w==" = strip (stdout proc).
Proof.
  destruct (@run_ok_inv sample_text_ops "hi" "/models/q4.gguf"
              LlamaZipOptions_default "llama-zip" world_ok []
              [EvWhich "llama-zip";
               EvRun (build_cmd "/usr/bin/llama-zip" "/models/q4.gguf"
                        LlamaZipOptions_default)
                     (list_byte_of_string "hi")]
              (list_byte_of_string "AQID/w==") eq_refl)
    as [exe [input [proc [Hw [_ [_ [_ [Hrun [_ [Hc _]]]]]]]]]].
  exists exe, input, proc. auto.
Defined.

Lemma IText2Bin_blank_output_witness :
  all_space (list_byte_of_string (" " ++ nl))
  /\ fst (exec (@IText2Bin sample_text_ops "hi" None None "llama-zip") world_blank)
     = Ok (list_byte_of_string "AA==").
Proof.
  split; [reflexivity|].
  exact (proj2 (@IText2Bin_blank_output sample_text_ops "hi" None None "llama-zip"
                  world_blank "/usr/bin/llama-zip" (list_byte_of_string "hi")
                  (mk_proc 0 (list_byte_of_string (" " ++ nl)) [])
                  eq_refl eq_refl eq_refl eq_refl eq_refl eq_refl eq_refl)).
Defined.

Lemma empty_environment_value_is_missing_witness :
  os_environ_get world_env_empty model_path_key = Some ""
  /\ exec (@IText2Bin sample_text_ops "hi" None None "llama-zip") world_env_empty
     = (Raise (mk_exn LlamaZipModelPathError model_path_msg),
        [EvEnvironGet model_path_key; EvWhich "llama-zip"]).
Proof.
  split; [reflexivity|].
  exact (@empty_environment_value_is_missing sample_text_ops "hi" None "llama-zip"
           world_env_empty "/usr/bin/llama-zip" eq_refl eq_refl eq_refl).
Defined.

Lemma text_goes_to_stdin_witness :
  In (EvRun (build_cmd "/usr/bin/llama-zip" "/models/q4.gguf" LlamaZipOptions_default)
            (list_byte_of_string "hi"))
     (snd (exec (@IText2Bin sample_text_ops "hi" None None "llama-zip") world_ok))
  /\ In (EvRun (build_cmd "/usr/bin/llama-zip" "/models/q4.gguf" LlamaZipOptions_default)
               (list_byte_of_string "other"))
        (snd (exec (@IText2Bin sample_text_ops "other" None None "llama-zip") world_ok)).
Proof.
  assert (Hin : In (EvRun (build_cmd "/usr/bin/llama-zip" "/models/q4.gguf"
                             LlamaZipOptions_default)
                          (list_byte_of_string "hi"))
                   (snd (exec (@IText2Bin sample_text_ops "hi" None None "llama-zip")
                           world_ok))).
  { right. right. left. reflexivity. }
  split; [exact Hin|].
  exact (proj2 (proj2 (proj2
           (@text_goes_to_stdin sample_text_ops "hi" None None "llama-zip"
              world_ok _ _ Hin)))
           "other" (list_byte_of_string "other") eq_refl).
Defined.

Lemma IText2Bin_malformed_output_witness :
  exists e,
    fst (exec (@IText2Bin sample_text_ops "hi" None None "llama-zip") world_malformed)
      = Raise e
    /\ isinstance e ValueError = true.
Proof.
  exists (binascii.Error "Only base64 data is allowed").
  destruct (@IText2Bin_malformed_output sample_text_ops "hi" None None "llama-zip"
              world_malformed "/usr/bin/llama-zip" (list_byte_of_string "hi")
              (mk_proc 0 (list_byte_of_string "AQ ID") [])
              (binascii.Error "Only base64 data is allowed")
              eq_refl eq_refl eq_refl eq_refl eq_refl eq_refl eq_refl)
    as [Hx [_ Hi]].
  split; [rewrite Hx; reflexivity | exact Hi].
Defined.

Lemma run_rejects_inner_whitespace_witness :
  In " "%byte (strip (list_byte_of_string "AQ ID"))
  /\ exists e,
       fst (exec (@_run_llama_zip_compress_base64 sample_text_ops
                    "hi" "/models/q4.gguf" LlamaZipOptions_default "llama-zip")
              world_malformed) = Raise e
       /\ exn_cls e = binascii_Error.
Proof.
  assert (Hin : In " "%byte
                   (strip (stdout (mk_proc 0 (list_byte_of_string "AQ ID") []))))
    by (right; right; left; reflexivity).
  split; [exact Hin|].
  exact (@run_rejects_inner_whitespace sample_text_ops "hi" "/models/q4.gguf"
           LlamaZipOptions_default "llama-zip" world_malformed []
           "/usr/bin/llama-zip" (list_byte_of_string "hi")
           (mk_proc 0 (list_byte_of_string "AQ ID") []) " "%byte
           eq_refl eq_refl eq_refl eq_refl eq_refl eq_refl eq_refl Hin).
Defined.


Lemma subprocess_error_propagates_witness :
  subprocess_run world_exec_fails
    (build_cmd "/usr/bin/llama-zip" "/models/q4.gguf" LlamaZipOptions_default)
    (list_byte_of_string "hi")
  = Raise (mk_exn OSError "[Errno 8] Exec format error")
  /\ fst (exec (@IText2Bin sample_text_ops "hi" None None "llama-zip") world_exec_fails)
     = Raise (mk_exn OSError "[Errno 8] Exec format error").
Proof.
  split; [reflexivity|].
  rewrite (@subprocess_error_propagates sample_text_ops "hi" None None "llama-zip"
             world_exec_fails "/usr/bin/llama-zip" (list_byte_of_string "hi")
             (mk_exn OSError "[Errno 8] Exec format error")
             eq_refl eq_refl eq_refl eq_refl eq_refl).
  reflexivity.
Defined.
